(** * apply4me-backend: the submission service

    A shallow embedding of the four Express servers of the repository
    and the properties of their request handlers.

    - [Validating] embeds the first server of [src/unnamed/part_000]
      (memory storage for uploads, 5 MB limit, field validation, health
      endpoint, fallback error middleware).
    - [Disk] embeds the handler shared verbatim by [src/server.js],
      [src/unnamed/part_001] and the second server of
      [src/unnamed/part_000] (disk storage, no validation).

    Express, multer and Mongoose are dependencies; what the handlers
    observe of them is modelled explicitly and named where it is
    introduced. *)

From Stdlib Require Import NArith ZArith Lia Bool Ascii String.
From stdpp Require Import gmap strings list pretty.

Open Scope N_scope.

(** ** JavaScript strings

    A JavaScript string is a sequence of UTF-16 code units; [trim] and
    a regular expression without the [u] flag both work on code
    units. *)

Definition jsstring := list N.

(** An ASCII literal as a JavaScript string. *)
Fixpoint js (s : string) : jsstring :=
  match s with
  | EmptyString => []
  | String a s' => N_of_ascii a :: js s'
  end.

(** ECMAScript WhiteSpace and LineTerminator code units: the set that
    [String.prototype.trim] strips and that [\s] matches. *)
Definition isWhiteSpace (c : N) : bool :=
  existsb (N.eqb c)
    [9; 10; 11; 12; 13; 32; 160; 5760; 8232; 8233; 8239; 8287; 12288; 65279]
  || ((8192 <=? c) && (c <=? 8202)).

Fixpoint trimStart (s : jsstring) : jsstring :=
  match s with
  | [] => []
  | c :: s' => if isWhiteSpace c then trimStart s' else s
  end.

Definition trimEnd (s : jsstring) : jsstring := rev (trimStart (rev s)).

(** [s.trim()] *)
Definition trim (s : jsstring) : jsstring := trimEnd (trimStart s).

(** ** Regular expressions

    The fragment of the regular-expression language that the source
    uses: literals, negated character classes, concatenation and [+],
    anchored at both ends. [test] decides membership with Brzozowski
    derivatives; [Matches] is the language the expression denotes. *)

Inductive cclass :=
| Lit (c : N)                        (* a literal character *)
| NoneOf (space : bool) (cs : list N). (* [^...]: \s when [space], and [cs] *)

Definition in_class (k : cclass) (c : N) : bool :=
  match k with
  | Lit c' => c =? c'
  | NoneOf space cs => negb ((space && isWhiteSpace c) || existsb (N.eqb c) cs)
  end.

Inductive regex :=
| Void
| Eps
| Atom (k : cclass)
| Cat (r1 r2 : regex)
| Alt (r1 r2 : regex)
| Star (r : regex).

(** [r+] *)
Definition Plus (r : regex) : regex := Cat r (Star r).

Inductive Matches : regex -> jsstring -> Prop :=
| MEps : Matches Eps []
| MAtom k c : in_class k c = true -> Matches (Atom k) [c]
| MCat r1 r2 s1 s2 :
    Matches r1 s1 -> Matches r2 s2 -> Matches (Cat r1 r2) (s1 ++ s2)
| MAltL r1 r2 s : Matches r1 s -> Matches (Alt r1 r2) s
| MAltR r1 r2 s : Matches r2 s -> Matches (Alt r1 r2) s
| MStar0 r : Matches (Star r) []
| MStarS r s1 s2 :
    Matches r s1 -> Matches (Star r) s2 -> Matches (Star r) (s1 ++ s2).

Fixpoint nullable (r : regex) : bool :=
  match r with
  | Void => false
  | Eps => true
  | Atom _ => false
  | Cat r1 r2 => nullable r1 && nullable r2
  | Alt r1 r2 => nullable r1 || nullable r2
  | Star _ => true
  end.

Fixpoint deriv (c : N) (r : regex) : regex :=
  match r with
  | Void => Void
  | Eps => Void
  | Atom k => if in_class k c then Eps else Void
  | Cat r1 r2 =>
      if nullable r1 then Alt (Cat (deriv c r1) r2) (deriv c r2)
      else Cat (deriv c r1) r2
  | Alt r1 r2 => Alt (deriv c r1) (deriv c r2)
  | Star r' => Cat (deriv c r') (Star r')
  end.

(** [/^r$/.test(s)] *)
Fixpoint test (r : regex) (s : jsstring) : bool :=
  match s with
  | [] => nullable r
  | c :: s' => test (deriv c r) s'
  end.

Definition AT : N := 64.   (* @ *)
Definition DOT : N := 46.  (* . *)

(** [[^\s@]] *)
Definition notSpaceAt : cclass := NoneOf true [AT].

(** [const emailRegex = /^[^\s@]+@[^\s@]+\.[^\s@]+$/;] *)
Definition emailRegex : regex :=
  Cat (Plus (Atom notSpaceAt))
    (Cat (Atom (Lit AT))
       (Cat (Plus (Atom notSpaceAt))
          (Cat (Atom (Lit DOT)) (Plus (Atom notSpaceAt))))).

(** The pattern as the specification words it: "one or more
    non-space/non-@ characters, @, one or more non-space/non-@
    characters, ., one or more non-space characters". *)
Definition notSpace : cclass := NoneOf true [].

Definition spec_email_pattern : regex :=
  Cat (Plus (Atom notSpaceAt))
    (Cat (Atom (Lit AT))
       (Cat (Plus (Atom notSpaceAt))
          (Cat (Atom (Lit DOT)) (Plus (Atom notSpace))))).

(** The shape of an address the source's expression accepts, stated
    without regular expressions. *)
Definition plain (c : N) : Prop := isWhiteSpace c = false /\ c <> AT.

Definition EmailShape (s : jsstring) : Prop :=
  exists l d t : jsstring,
    s = l ++ AT :: d ++ DOT :: t /\
    l <> [] /\ d <> [] /\ t <> [] /\
    Forall plain l /\ Forall plain d /\ Forall plain t.

(** ** Requests

    [req.body] is filled by [express.json()],
    [express.urlencoded({ extended: true })] or multer, so a field is
    absent, a string, or (JSON bodies, [name[]=x], repeated keys) some
    other value. Of a number or a boolean the servers observe the
    truthiness and the string conversion; of an array or a nested
    object the string conversion and what Mongoose's cast to [String]
    makes of it (the string [_id] of an object that has one; nothing
    for an array or any other plain object, the cast fails). *)

Inductive jsvalue :=
| JUndefined                               (* the key is absent *)
| JString (s : jsstring)
| JOther (truth : bool) (shown : jsstring) (* a number or a boolean *)
| JNull
| JObject (shown : jsstring) (cast : option jsstring). (* an array, an object *)

(** JavaScript ToBoolean *)
Definition truthy (v : jsvalue) : bool :=
  match v with
  | JUndefined => false
  | JString s => negb (bool_decide (s = []))
  | JOther b _ => b
  | JNull => false
  | JObject _ _ => true
  end.

(** JavaScript ToString *)
Definition ToString (v : jsvalue) : jsstring :=
  match v with
  | JUndefined => js "undefined"
  | JString s => s
  | JOther _ shown => shown
  | JNull => js "null"
  | JObject shown _ => shown
  end.

Module Body.
(** [const { name, email, mobile, message } = req.body;] *)
Record t := { name : jsvalue; email : jsvalue; mobile : jsvalue; message : jsvalue }.
End Body.

Module File.
(** [req.file] as multer leaves it: [size] is the number of bytes
    received for the part, [buffer] is set by memory storage and
    [path] by disk storage. *)
Record t := {
  originalname : jsstring;
  mimetype : jsstring;
  size : N;
  buffer : list N;
  path : jsstring
}.
End File.

Record request := { body : Body.t; file : option File.t }.

(** ** Responses *)

(** An entry of [corsOptions.origin]: a string or a regular expression. *)
Inductive origin :=
| Exact (url : string)
| Pattern (source : string).

(** The values the handlers put under the keys of a response body. *)
Inductive json :=
| JStr (s : string)
| JBool (b : bool)
| JOid (id : N)                  (* an ObjectId *)
| JDate (t : Z)                  (* a Date, milliseconds since the epoch *)
| JKeys (l : list string)        (* an array of strings *)
| JOrigins (l : list origin).    (* the array [corsOptions.origin] *)

(** [res.status(status).json(body)]; the keys of [body] in source order. *)
Record response := { status : N; body_json : list (string * json) }.

(** The value under a key of a JSON object. *)
Fixpoint field_of (k : string) (o : list (string * json)) : option json :=
  match o with
  | [] => None
  | (k', v) :: o' => if String.eqb k k' then Some v else field_of k o'
  end.

(** ** Errors and the environment *)

(** A thrown error: [err.name], [err.message] and [Object.keys(err.errors)]
    (empty for errors without an [errors] map). *)
Record js_error := {
  err_name : string;
  err_message : string;
  err_errors : list string
}.

Inductive completion (A : Type) :=
| Normal (a : A)
| Throw (e : js_error).
Arguments Normal {A} a.
Arguments Throw {A} e.

Definition bind {A B} (c : completion A) (k : A -> completion B) : completion B :=
  match c with
  | Normal a => k a
  | Throw e => Throw e
  end.

Notation "'let!' x ':=' c 'in' k" := (bind c (fun x => k))
  (at level 10, x name, c at level 100, k at level 200).

(** [process.env] *)
Record Config := { NODE_ENV : option string; FRONTEND_URL : option string }.

(** [process.env.NODE_ENV === "development"] *)
Definition development (cfg : Config) : bool :=
  match NODE_ENV cfg with
  | Some s => String.eqb s "development"
  | None => false
  end.

(** What one request sees of the outside: the clock ([Date.now()],
    [new Date()]), the ObjectId the driver draws for a new document, a
    failure of the persistence layer (connectivity and the like) if one
    occurs during the save, and [mongoose.connection.readyState]. *)
Record Ambient := {
  now : Z;
  oid : N;
  fault : option js_error;
  readyState : N
}.

(** The server's answer when MongoDB refuses a second document with an
    [_id] already in the collection (the unique index on [_id]). *)
Definition duplicate_key : js_error :=
  {| err_name := "MongoServerError";
     err_message := "E11000 duplicate key error";
     err_errors := [] |}.

(** The error multer raises for a part over the size limit. *)
Definition file_too_large : js_error :=
  {| err_name := "MulterError"; err_message := "File too large"; err_errors := [] |}.

Definition TypeError (msg : string) : js_error :=
  {| err_name := "TypeError"; err_message := msg; err_errors := [] |}.

(** [v.trim()] for the field called [field] *)
Definition call_trim (field : string) (v : jsvalue) : completion jsstring :=
  match v with
  | JString s => Normal (trim s)
  | JUndefined =>
      Throw (TypeError "Cannot read properties of undefined (reading 'trim')")
  | JOther _ _ => Throw (TypeError (field +:+ ".trim is not a function"))
  | JNull => Throw (TypeError "Cannot read properties of null (reading 'trim')")
  | JObject _ _ => Throw (TypeError (field +:+ ".trim is not a function"))
  end.
(* The handlers call [trim] on truthy values only, so the messages for
   [undefined] and [null] are never observed. *)

(** [!v || v.trim() === ""] *)
Definition is_blank (field : string) (v : jsvalue) : completion bool :=
  if negb (truthy v) then Normal true
  else let! t := call_trim field v in Normal (bool_decide (t = [])).

(** ** The validating server ([src/unnamed/part_000], first file) *)

Module Validating.

(** [resume: { data: Buffer, contentType: String, originalName: String }] *)
Record Resume := {
  data : list N;
  contentType : jsstring;
  originalName : jsstring
}.

(** A document of the [Submission] model. [mobile] and [message] are
    plain [String] paths. *)
Record Submission := {
  _id : N;
  name : jsstring;
  email : jsstring;
  mobile : jsstring;
  message : jsstring;
  resume : option Resume;
  createdAt : Z
}.

(** The collection, keyed by [_id]. *)
Abbreviation store := (gmap N Submission).

(** [corsOptions.origin]; [a || b] takes [b] when [a] is unset or empty. *)
Definition corsOptions_origin (cfg : Config) : list origin :=
  [ Exact (match FRONTEND_URL cfg with
           | Some u => if String.eqb u "" then "http://localhost:5173" else u
           | None => "http://localhost:5173"
           end);
    Exact "https://apply4me-frontend.vercel.app";
    Exact "https://apply4me-frontend-9tjtasn0b-alunixs-projects.vercel.app";
    Pattern "^https:\/\/apply4me-frontend.*\.vercel\.app$" ].

(** [limits: { fileSize: 5 * 1024 * 1024 }] *)
Definition fileSize : N := 5 * 1024 * 1024.

(** [upload.single("resume")]: multer hands a part longer than
    [limits.fileSize] to [next] as a [MulterError]. *)
Definition upload_single (req : request) : completion request :=
  match file req with
  | Some f =>
      if fileSize <? File.size f then Throw file_too_large else Normal req
  | None => Normal req
  end.

(** The paths marked [required: true] that Mongoose's validation
    rejects: a required string must be non-empty. *)
Definition schema_errors (d : Submission) : list string :=
  (if bool_decide (name d = []) then ["name"%string] else []) ++
  (if bool_decide (email d = []) then ["email"%string] else []).

(** [newSubmission.save()]: validation against the schema, then the
    insert, which the persistence layer may fail and which MongoDB
    refuses for an [_id] already present. *)
Definition save (w : Ambient) (d : Submission) (st : store) : completion store :=
  match schema_errors d with
  | _ :: _ as paths =>
      Throw {| err_name := "ValidationError";
               err_message := "Submission validation failed";
               err_errors := paths |}
  | [] =>
      match fault w with
      | Some e => Throw e
      | None =>
          match st !! _id d with
          | Some _ => Throw duplicate_key
          | None => Normal (<[_id d := d]> st)
          end
      end
  end.

(** The 400 answers of the validation block. *)
Definition validation_failed (details field : string) : response :=
  {| status := 400;
     body_json := [ ("error", JStr "Validation failed");
                    ("details", JStr details);
                    ("field", JStr field) ]%string |}.

(** [req.file] into [submissionData.resume] *)
Definition resume_of (f : File.t) : Resume :=
  {| data := File.buffer f;
     contentType := File.mimetype f;
     originalName := File.originalname f |}.

(** The [try] block of [app.post("/api/submit", ...)]. *)
Definition submit_try (w : Ambient) (req : request) (st : store)
  : completion (response * store) :=
  let b := body req in
  let! blank := is_blank "name" (Body.name b) in
  if blank : bool then
    Normal (validation_failed "Name is required and cannot be empty" "name", st)
  else
  let! blank := is_blank "email" (Body.email b) in
  if blank : bool then
    Normal (validation_failed "Email is required and cannot be empty" "email", st)
  else
  if negb (test emailRegex (ToString (Body.email b))) then
    Normal (validation_failed "Please enter a valid email address" "email", st)
  else
  let! name' := call_trim "name" (Body.name b) in
  let! email' := call_trim "email" (Body.email b) in
  let! mobile' :=
    (if truthy (Body.mobile b) then call_trim "mobile" (Body.mobile b)
     else Normal []) in
  let! message' :=
    (if truthy (Body.message b) then call_trim "message" (Body.message b)
     else Normal []) in
  let newSubmission :=
    {| _id := oid w;
       name := name';
       email := email';
       mobile := mobile';
       message := message';
       resume := resume_of <$> file req;
       createdAt := now w |} in
  let! st' := save w newSubmission st in
  Normal ({| status := 201;
             body_json := [ ("success", JBool true);
                            ("message", JStr "Submission saved successfully");
                            ("submissionId", JOid (_id newSubmission)) ]%string |},
          st').

(** The [catch] block. *)
Definition submit_catch (cfg : Config) (err : js_error) : response :=
  if String.eqb (err_name err) "ValidationError" then
    {| status := 400;
       body_json := [ ("error", JStr "Database validation failed");
                      ("details", JStr (err_message err));
                      ("fields", JKeys (err_errors err)) ]%string |}
  else if String.eqb (err_name err) "MongoError"
          || String.eqb (err_name err) "MongoServerError" then
    {| status := 500;
       body_json := [ ("error", JStr "Database error");
                      ("details", JStr (if development cfg then err_message err
                                        else "Database connection issue")) ]%string |}
  else
    {| status := 500;
       body_json := [ ("error", JStr "Server error");
                      ("details", JStr (if development cfg then err_message err
                                        else "Internal server error")) ]%string |}.

(** The handler of [POST /api/submit]: the answer and the collection
    afterwards. *)
Definition submit (cfg : Config) (w : Ambient) (req : request) (st : store)
  : response * store :=
  match submit_try w req st with
  | Normal out => out
  | Throw err => (submit_catch cfg err, st)
  end.

(** The error-handling middleware; [details: undefined] leaves the key
    out of the JSON body. *)
Definition error_middleware (cfg : Config) (err : js_error) : response :=
  {| status := 500;
     body_json :=
       ("error", JStr "Internal server error") ::
       (if development cfg then [("details", JStr (err_message err))] else [])
  |}%string.

(** [POST /api/submit] through the route's middleware chain: an error
    handed to [next] skips the handler and the 404 middleware and
    reaches the error-handling middleware. *)
Definition post_submit (cfg : Config) (w : Ambient) (req : request) (st : store)
  : response * store :=
  match upload_single req with
  | Normal req' => submit cfg w req' st
  | Throw err => (error_middleware cfg err, st)
  end.

(** [app.get("/api/health", ...)]; [res.json] answers with status 200. *)
Definition health (cfg : Config) (w : Ambient) : response :=
  {| status := 200;
     body_json := [ ("status", JStr "healthy");
                    ("database", JStr (if N.eqb (readyState w) 1 then "connected"
                                       else "disconnected"));
                    ("timestamp", JDate (now w));
                    ("cors", JOrigins (corsOptions_origin cfg)) ]%string |}.

End Validating.

(** ** The disk-storage servers ([src/server.js], [src/unnamed/part_001]
    and the second file of [src/unnamed/part_000]) *)

Module Disk.

(** What a [String] path of a stored document holds: nothing, [null] or
    a string. *)
Inductive text_path :=
| Unset
| Null
| Text (s : jsstring).

(** A document of the [Submission] model of these servers; the schema
    declares [name], [email], [mobile], [message] and [resumePath] as
    [String], without validators and without defaults. *)
Record Submission := {
  _id : N;
  name : text_path;
  email : text_path;
  mobile : text_path;
  message : text_path;
  resumePath : jsstring;
  createdAt : Z
}.

Abbreviation store := (gmap N Submission).

(** Mongoose's cast of a value handed to a [String] path: [undefined]
    and [null] are kept, a string is taken as it is, a number or a
    boolean becomes its string, and an array or an object becomes what
    its cast gives, or fails. *)
Definition cast (v : jsvalue) : option text_path :=
  match v with
  | JUndefined => Some Unset
  | JNull => Some Null
  | JString s => Some (Text s)
  | JOther _ shown => Some (Text shown)
  | JObject _ c => Text <$> c
  end.

(** The paths of the form whose cast fails. The constructor leaves such
    a path unset and keeps the error for [save]. *)
Definition cast_errors (b : Body.t) : list string :=
  (match cast (Body.name b) with Some _ => [] | None => ["name"%string] end) ++
  (match cast (Body.email b) with Some _ => [] | None => ["email"%string] end) ++
  (match cast (Body.mobile b) with Some _ => [] | None => ["mobile"%string] end) ++
  (match cast (Body.message b) with Some _ => [] | None => ["message"%string] end).

(** [new Submission({ name, email, mobile, message, resumePath })] *)
Definition new_Submission (w : Ambient) (b : Body.t) (resumePath : jsstring)
  : Submission :=
  {| _id := oid w;
     name := default Unset (cast (Body.name b));
     email := default Unset (cast (Body.email b));
     mobile := default Unset (cast (Body.mobile b));
     message := default Unset (cast (Body.message b));
     resumePath := resumePath;
     createdAt := now w |}.

(** [newSubmission.save()]: validation rejects a document with failed
    casts (the schema has no other validator); then the insert, which
    the persistence layer may fail and which MongoDB refuses for an
    [_id] already present. *)
Definition save (w : Ambient) (errors : list string) (d : Submission) (st : store)
  : completion store :=
  match errors with
  | _ :: _ =>
      Throw {| err_name := "ValidationError";
               err_message := "Submission validation failed";
               err_errors := errors |}
  | [] =>
      match fault w with
      | Some e => Throw e
      | None =>
          match st !! _id d with
          | Some _ => Throw duplicate_key
          | None => Normal (<[_id d := d]> st)
          end
      end
  end.

(** The handler of [POST /api/submit]. *)
Definition submit (w : Ambient) (req : request) (st : store) : response * store :=
  let b := body req in
  let resumePath :=
    match file req with
    | Some f => File.path f
    | None => []
    end in
  let newSubmission := new_Submission w b resumePath in
  match save w (cast_errors b) newSubmission st with
  | Normal st' =>
      ({| status := 201;
          body_json := [ ("message", JStr "Submission saved successfully") ]%string |},
       st')
  | Throw _ =>
      ({| status := 500;
          body_json := [ ("error", JStr "Server error") ]%string |},
       st)
  end.

End Disk.

(** ** Vocabulary of the statements *)

(** A field that is absent or empty after trimming; the falsy values
    that are not strings ([null], [0], [false]) count as absent. *)
Definition missing (v : jsvalue) : bool :=
  match v with
  | JUndefined => true
  | JString s => bool_decide (trim s = [])
  | JOther truth _ => negb truth
  | JNull => true
  | JObject _ _ => false
  end.

(** A text field that is not empty after trimming. *)
Definition filled (v : jsvalue) : bool :=
  match v with
  | JString s => negb (bool_decide (trim s = []))
  | _ => false
  end.

(** An optional field as a form sends it: text, or left out. *)
Definition optional (v : jsvalue) : bool :=
  match v with
  | JUndefined | JString _ => true
  | JOther truth _ => negb truth
  | JNull => true
  | JObject _ _ => false
  end.

(** The trimmed text of an optional field, empty when it is left out. *)
Definition optional_text (v : jsvalue) : jsstring :=
  match v with
  | JString s => trim s
  | _ => []
  end.

(** A request that gets past the three checks of the validating server
    and whose optional fields are text or left out. *)
Definition acceptable (b : Body.t) : bool :=
  filled (Body.name b)
  && match Body.email b with
     | JString e => test emailRegex e
     | _ => false
     end
  && optional (Body.mobile b) && optional (Body.message b).

(** The document the validating server is expected to store for a
    request: the trimmed fields, the metadata of the attached file, the
    identifier drawn and the time of the request. *)
Definition expected_document (w : Ambient) (req : request) : Validating.Submission :=
  {| Validating._id := oid w;
     Validating.name := trim (ToString (Body.name (body req)));
     Validating.email := trim (ToString (Body.email (body req)));
     Validating.mobile := optional_text (Body.mobile (body req));
     Validating.message := optional_text (Body.message (body req));
     Validating.resume := Validating.resume_of <$> file req;
     Validating.createdAt := now w |}.

(** The 201 answer of the validating server for the document [id]. *)
Definition created (id : N) : response :=
  {| status := 201;
     body_json := [ ("success", JBool true);
                    ("message", JStr "Submission saved successfully");
                    ("submissionId", JOid id) ]%string |}.

(** The document the disk-storage servers store for a request: the four
    fields as the cast leaves them (a text as it was sent), and the path
    multer gave the file. *)
Definition stored_as_sent (w : Ambient) (req : request) : Disk.Submission :=
  Disk.new_Submission w (body req)
    (match file req with
     | Some f => File.path f
     | None => []
     end).

(** The 201 answer of the disk-storage servers. *)
Definition saved : response :=
  {| status := 201;
     body_json := [ ("message", JStr "Submission saved successfully") ]%string |}.

(** ** Concrete scenarios *)

Definition production : Config :=
  {| NODE_ENV := Some "production"; FRONTEND_URL := None |}.

(** A moment with the store connected and no failure: the clock reads
    [t] and the driver draws [id]. *)
Definition calm (t : Z) (id : N) : Ambient :=
  {| now := t; oid := id; fault := None; readyState := 1 |}.

(** A moment in which the persistence layer fails with [err]. *)
Definition failing (err : js_error) : Ambient :=
  {| now := 1000; oid := 7; fault := Some err; readyState := 0 |}.

(** A form without a file. *)
Definition form (name email mobile message : jsvalue) : request :=
  {| body := {| Body.name := name; Body.email := email;
                Body.mobile := mobile; Body.message := message |};
     file := None |}.

(** [name="Jane Doe"], [email="jane@example.com"], no file. *)
Definition jane : request :=
  form (JString (js "Jane Doe")) (JString (js "jane@example.com"))
    JUndefined JUndefined.

(** The same form without the name. *)
Definition nameless : request :=
  form JUndefined (JString (js "jane@example.com")) JUndefined JUndefined.

(** [name[]=a&name[]=b] under the extended urlencoded parser, no email. *)
Definition name_array : request :=
  form (JObject (js "a,b") None) JUndefined JUndefined JUndefined.

(** Jane's form with blanks around the name. *)
Definition padded_jane : request :=
  form (JString (js " Jane Doe ")) (JString (js "jane@example.com"))
    JUndefined JUndefined.

(** A form without a name, with blanks before a well-formed address. *)
Definition nameless_padded : request :=
  form JUndefined (JString (js " jane@example.com")) JUndefined JUndefined.

(** Jane's form with an address the specification's wording of the
    pattern accepts: a second [@] in the last part. *)
Definition two_ats : request :=
  form (JString (js "Jane Doe")) (JString (js "a@b.c@")) JUndefined JUndefined.

(** Jane's form with a resume one byte over 5 MB; multer never hands
    the content of such a part on. *)
Definition big_resume : request :=
  {| body := body jane;
     file := Some {| File.originalname := js "cv.pdf";
                     File.mimetype := js "application/pdf";
                     File.size := 5 * 1024 * 1024 + 1;
                     File.buffer := [];
                     File.path := [] |} |}.

(** A lost connection to the store. *)
Definition network_error : js_error :=
  {| err_name := "MongoNetworkError";
     err_message := "connection timed out";
     err_errors := [] |}.

(** ** The rest of the servers *)

(** Requests served one after the other by the validating server, in
    the order in which they reach the collection: the answers and the
    collection afterwards. *)
Fixpoint serve (cfg : Config) (calls : list (Ambient * request))
    (st : Validating.store) : list response * Validating.store :=
  match calls with
  | [] => ([], st)
  | (w, req) :: rest =>
      let out := Validating.post_submit cfg w req st in
      let later := serve cfg rest out.2 in
      (out.1 :: later.1, later.2)
  end.

(** The same for the disk-storage servers. *)
Fixpoint serve_disk (calls : list (Ambient * request)) (st : Disk.store)
    : list response * Disk.store :=
  match calls with
  | [] => ([], st)
  | (w, req) :: rest =>
      let out := Disk.submit w req st in
      let later := serve_disk rest out.2 in
      (out.1 :: later.1, later.2)
  end.

(** The number of 201 answers in a list of answers. *)
Definition created_count (answers : list response) : nat :=
  length (filter (fun r => status r = 201) answers).

(** What the validating server's validation promises of a stored
    document: a non-empty name, an address of the accepted shape, and
    no blanks around any of the four texts. *)
Definition well_formed (d : Validating.Submission) : Prop :=
  Validating.name d <> [] /\ trim (Validating.name d) = Validating.name d /\
  EmailShape (Validating.email d) /\
  trim (Validating.mobile d) = Validating.mobile d /\
  trim (Validating.message d) = Validating.message d.

(** The field whose [trim] call throws in the validating handler, if
    one does: the first truthy value that is not a string, in the order
    in which the handler touches the fields. *)
Definition throwing_field (b : Body.t) : option string :=
  match Body.name b with
  | JOther true _ | JObject _ _ => Some "name"%string
  | _ =>
      if filled (Body.name b) then
        match Body.email b with
        | JOther true _ | JObject _ _ => Some "email"%string
        | JString e =>
            if test emailRegex e then
              match Body.mobile b with
              | JOther true _ | JObject _ _ => Some "mobile"%string
              | _ =>
                  match Body.message b with
                  | JOther true _ | JObject _ _ => Some "message"%string
                  | _ => None
                  end
              end
            else None
        | JUndefined | JOther false _ | JNull => None
        end
      else None
  end.

(** The persistence layer fails with an error named [ValidationError]. *)
Definition store_validation_fault (w : Ambient) : bool :=
  match fault w with
  | Some e => String.eqb (err_name e) "ValidationError"
  | None => false
  end.

(** [filename: (req, file, cb) => cb(null, Date.now() + "_" + file.originalname)]
    of the disk storage; a number is joined to a string in decimal. *)
Definition UNDERSCORE : N := 95.

Definition filename (t : Z) (originalname : jsstring) : jsstring :=
  js (pretty t) ++ UNDERSCORE :: originalname.

(** The [.] of a regular expression: any code unit but a line
    terminator. *)
Definition anyChar : cclass := NoneOf false [10; 13; 8232; 8233].

(** The characters of [l], then [k]. *)
Fixpoint literal (l : jsstring) (k : regex) : regex :=
  match l with
  | [] => k
  | c :: l' => Cat (Atom (Lit c)) (literal l' k)
  end.

(** [/^https:\/\/apply4me-frontend.*\.vercel\.app$/] *)
Definition vercel_pattern : regex :=
  literal (js "https://apply4me-frontend")
    (Cat (Star (Atom anyChar)) (literal (js ".vercel.app") Eps)).

(** The regular expressions of [corsOptions.origin], by their source. *)
Definition regex_of_source (source : string) : regex :=
  if String.eqb source "^https:\/\/apply4me-frontend.*\.vercel\.app$"
  then vercel_pattern else Void.

(** Whether an entry of [corsOptions.origin] admits the [Origin] header
    of a request, as the cors middleware decides it: a string entry by
    equality, a regular expression by [test], which reads a missing
    header as the text [undefined]. *)
Definition entry_admits (requestOrigin : option string) (entry : origin) : bool :=
  match entry, requestOrigin with
  | Exact url, Some o => String.eqb o url
  | Exact _, None => false
  | Pattern source, Some o => test (regex_of_source source) (js o)
  | Pattern source, None => test (regex_of_source source) (js "undefined")
  end.

(** An origin is allowed when some entry of the list admits it. *)
Definition isOriginAllowed (cfg : Config) (requestOrigin : option string) : bool :=
  existsb (entry_admits requestOrigin) (Validating.corsOptions_origin cfg).

(** [process.env.FRONTEND_URL || "http://localhost:5173"] *)
Definition frontend_url (cfg : Config) : string :=
  match FRONTEND_URL cfg with
  | Some u => if String.eqb u "" then "http://localhost:5173" else u
  | None => "http://localhost:5173"
  end.

(** The shape of the origins the pattern admits. *)
Definition VercelShape (s : jsstring) : Prop :=
  exists x : jsstring,
    s = js "https://apply4me-frontend" ++ x ++ js ".vercel.app" /\
    Forall (fun c => in_class anyChar c = true) x.

(** [process.env.NODE_ENV || "development"], shown on the root page and
    in the start-up log. *)
Definition environment_label (cfg : Config) : string :=
  match NODE_ENV cfg with
  | Some s => if String.eqb s "" then "development" else s
  | None => "development"
  end.

(** * Properties *)

(** ** Whitespace and [trim] *)

Lemma trimStart_blank (s : jsstring) :
  trimStart s = [] <-> forallb isWhiteSpace s = true.
Proof.
  induction s as [|c s IH]; simpl; [tauto|].
  destruct (isWhiteSpace c); simpl; [exact IH|].
  split; discriminate.
Qed.

Lemma trimStart_suffix (s : jsstring) :
  exists pre, s = pre ++ trimStart s /\ forallb isWhiteSpace pre = true.
Proof.
  induction s as [|c s [pre [E B]]]; simpl.
  - exists []. auto.
  - destruct (isWhiteSpace c) eqn:W.
    + exists (c :: pre). simpl. rewrite W, B. split; [congruence | reflexivity].
    + exists []. auto.
Qed.

Lemma trimStart_head (c : N) (s : jsstring) :
  isWhiteSpace c = false -> trimStart (c :: s) = c :: s.
Proof. intros W. simpl. now rewrite W. Qed.

Lemma trimStart_app_blank (pre s : jsstring) :
  forallb isWhiteSpace pre = true -> trimStart (pre ++ s) = trimStart s.
Proof.
  induction pre as [|c pre IH]; simpl; [reflexivity|].
  intros H. apply andb_true_iff in H as [W B]. rewrite W. auto.
Qed.

Lemma forallb_rev (f : N -> bool) (s : jsstring) :
  forallb f (rev s) = forallb f s.
Proof.
  induction s as [|c s IH]; simpl; [reflexivity|].
  rewrite forallb_app, IH. simpl. rewrite andb_true_r. apply andb_comm.
Qed.

Lemma trim_blank (s : jsstring) :
  trim s = [] <-> forallb isWhiteSpace s = true.
Proof.
  unfold trim, trimEnd. split.
  - intros H.
    assert (R : trimStart (rev (trimStart s)) = []).
    { apply (f_equal (@rev N)) in H. rewrite rev_involutive in H. exact H. }
    apply trimStart_blank in R. rewrite forallb_rev in R.
    destruct (trimStart_suffix s) as [pre [E B]].
    rewrite E, forallb_app, B, R. reflexivity.
  - intros H. apply trimStart_blank in H. rewrite H. reflexivity.
Qed.

(** Trimming leaves a string without whitespace at either end as it is. *)
Lemma trim_core (c d : N) (mid : jsstring) :
  isWhiteSpace c = false -> isWhiteSpace d = false ->
  trim (c :: mid ++ [d]) = c :: mid ++ [d].
Proof.
  intros Wc Wd. unfold trim, trimEnd.
  rewrite (trimStart_head _ _ Wc).
  assert (R : rev (c :: mid ++ [d]) = d :: rev (c :: mid)).
  { change (c :: mid ++ [d]) with ((c :: mid) ++ [d]).
    rewrite rev_app_distr. reflexivity. }
  rewrite R, (trimStart_head _ _ Wd), <- R. apply rev_involutive.
Qed.

Lemma trim_single (c : N) : isWhiteSpace c = false -> trim [c] = [c].
Proof. intros W. unfold trim, trimEnd. simpl. rewrite W. simpl. now rewrite W. Qed.

(** A string free of whitespace is its own trim. *)
Lemma trim_no_space (s : jsstring) :
  Forall (fun c => isWhiteSpace c = false) s -> trim s = s.
Proof.
  intros H. destruct s as [|c s]; [reflexivity|].
  destruct (rev s) as [|d m] eqn:R.
  - apply (f_equal (@rev N)) in R. rewrite rev_involutive in R. subst s.
    apply trim_single. now inversion H.
  - assert (E : s = rev m ++ [d]).
    { apply (f_equal (@rev N)) in R. rewrite rev_involutive in R. exact R. }
    subst s. apply trim_core.
    + now inversion H.
    + inversion H as [|? ? _ T]. apply Forall_app in T as [_ T]. now inversion T.
Qed.

(** Whitespace around a string that has none at its ends is what [trim]
    removes. *)
Lemma trim_padded (pre post core : jsstring) :
  forallb isWhiteSpace pre = true -> forallb isWhiteSpace post = true ->
  trim core = core -> core <> [] ->
  trim (pre ++ core ++ post) = core.
Proof.
  intros Bpre Bpost Hcore Hne. unfold trim, trimEnd in *.
  rewrite trimStart_app_blank by exact Bpre.
  destruct core as [|c core]; [congruence|].
  destruct (isWhiteSpace c) eqn:W.
  - exfalso. simpl in Hcore. rewrite W in Hcore.
    destruct (trimStart_suffix core) as [p [E _]].
    assert (L : length (rev (trimStart (rev (trimStart core)))) = S (length core))
      by now rewrite Hcore.
    rewrite length_rev in L.
    destruct (trimStart_suffix (rev (trimStart core))) as [q [E2 _]].
    apply (f_equal (@length N)) in E2. rewrite length_app, length_rev in E2.
    apply (f_equal (@length N)) in E. rewrite length_app in E. lia.
  - rewrite trimStart_head in Hcore by exact W.
    change ((c :: core) ++ post) with (c :: core ++ post).
    rewrite trimStart_head by exact W.
    change (c :: core ++ post) with ((c :: core) ++ post).
    rewrite rev_app_distr, trimStart_app_blank by now rewrite forallb_rev.
    exact Hcore.
Qed.

(** ** Regular expressions: [test] decides [Matches] *)

Lemma nullable_spec (r : regex) : nullable r = true <-> Matches r [].
Proof.
  induction r as [| |k|r1 IH1 r2 IH2|r1 IH1 r2 IH2|r IH]; simpl.
  - split; [discriminate | inversion 1].
  - split; [constructor | reflexivity].
  - split; [discriminate | inversion 1].
  - rewrite andb_true_iff, IH1, IH2. split.
    + intros [H1 H2]. exact (MCat _ _ [] [] H1 H2).
    + inversion 1 as [| |? ? s1 s2 H1 H2 E1 E2| | | |]; subst.
      apply app_eq_nil in E2 as [-> ->]. auto.
  - rewrite orb_true_iff, IH1, IH2. split.
    + intros [H|H]; [now apply MAltL | now apply MAltR].
    + inversion 1; subst; auto.
  - split; [constructor | reflexivity].
Qed.

Lemma star_cons (r : regex) (c : N) (s : jsstring) :
  Matches (Star r) (c :: s) ->
  exists s1 s2, s = s1 ++ s2 /\ Matches r (c :: s1) /\ Matches (Star r) s2.
Proof.
  intros H. remember (Star r) as r' eqn:Er. remember (c :: s) as cs eqn:Es.
  revert s Es.
  induction H as [| | | | | |r0 s1 s2 H1 _ H2 IH2]; intros t Et; try discriminate.
  injection Er as ->.
  destruct s1 as [|c1 s1]; simpl in Et.
  - apply IH2; [reflexivity | exact Et].
  - injection Et as -> <-. exists s1, s2. auto.
Qed.

Lemma deriv_spec (r : regex) (c : N) (s : jsstring) :
  Matches (deriv c r) s <-> Matches r (c :: s).
Proof.
  revert s.
  induction r as [| |k|r1 IH1 r2 IH2|r1 IH1 r2 IH2|r IH]; intros s; simpl.
  - split; inversion 1.
  - split; inversion 1.
  - destruct (in_class k c) eqn:K; split.
    + inversion 1; subst. now constructor.
    + inversion 1; subst. constructor.
    + inversion 1.
    + inversion 1; subst. congruence.
  - assert (L : forall t, Matches (Cat (deriv c r1) r2) t -> Matches (Cat r1 r2) (c :: t)).
    { inversion 1 as [| |? ? s1 s2 H1 H2| | | |]; subst.
      apply IH1 in H1. exact (MCat _ _ (c :: s1) s2 H1 H2). }
    assert (R : forall t, Matches (Cat r1 r2) (c :: t) ->
                Matches (Cat (deriv c r1) r2) t \/
                (Matches r1 [] /\ Matches (deriv c r2) t)).
    { inversion 1 as [| |? ? s1 s2 H1 H2 E1 E2| | | |]; subst.
      destruct s1 as [|c1 s1]; simpl in E2.
      - subst s2. right. split; [exact H1 | now apply IH2].
      - injection E2 as -> <-. left. constructor; [now apply IH1 | exact H2]. }
    destruct (nullable r1) eqn:Nu; split.
    + inversion 1; subst; [now apply L|].
      apply nullable_spec in Nu. apply (MCat _ _ [] (c :: s) Nu). now apply IH2.
    + intros H. destruct (R _ H) as [H'|[_ H']]; [now apply MAltL | now apply MAltR].
    + apply L.
    + intros H. destruct (R _ H) as [H'|[H' _]]; [exact H'|].
      apply nullable_spec in H'. congruence.
  - split.
    + inversion 1; subst; [apply MAltL | apply MAltR]; [now apply IH1 | now apply IH2].
    + inversion 1; subst; [apply MAltL | apply MAltR]; [now apply IH1 | now apply IH2].
  - split.
    + inversion 1 as [| |? ? s1 s2 H1 H2| | | |]; subst.
      apply IH in H1. exact (MStarS _ (c :: s1) s2 H1 H2).
    + intros H. apply star_cons in H as [s1 [s2 [-> [H1 H2]]]].
      constructor; [now apply IH | exact H2].
Qed.

Lemma test_spec (r : regex) (s : jsstring) : test r s = true <-> Matches r s.
Proof.
  revert r. induction s as [|c s IH]; intros r; simpl.
  - apply nullable_spec.
  - rewrite IH. apply deriv_spec.
Qed.

Lemma matches_cat (r1 r2 : regex) (s : jsstring) :
  Matches (Cat r1 r2) s <->
  exists s1 s2, s = s1 ++ s2 /\ Matches r1 s1 /\ Matches r2 s2.
Proof.
  split.
  - inversion 1; subst. eauto.
  - intros [s1 [s2 [-> [H1 H2]]]]. now constructor.
Qed.

Lemma matches_atom (k : cclass) (s : jsstring) :
  Matches (Atom k) s <-> exists c, s = [c] /\ in_class k c = true.
Proof.
  split.
  - inversion 1; subst. eauto.
  - intros [c [-> H]]. now constructor.
Qed.

Lemma matches_star_atom (k : cclass) (s : jsstring) :
  Matches (Star (Atom k)) s <-> Forall (fun c => in_class k c = true) s.
Proof.
  split.
  - intros H. remember (Star (Atom k)) as r eqn:Er.
    induction H as [| | | | | |r0 s1 s2 H1 _ H2 IH2]; try discriminate.
    + constructor.
    + injection Er as ->. apply matches_atom in H1 as [c [-> K]].
      constructor; [exact K | now apply IH2].
  - induction 1 as [|c s K _ IH].
    + constructor.
    + apply (MStarS _ [c] s); [now constructor | exact IH].
Qed.

Lemma matches_plus_atom (k : cclass) (s : jsstring) :
  Matches (Plus (Atom k)) s <->
  s <> [] /\ Forall (fun c => in_class k c = true) s.
Proof.
  unfold Plus. rewrite matches_cat. split.
  - intros [s1 [s2 [-> [H1 H2]]]].
    apply matches_atom in H1 as [c [-> K]]. apply matches_star_atom in H2.
    split; [discriminate | now constructor].
  - intros [Hne H]. destruct H as [|c s K H]; [congruence|].
    exists [c], s. split; [reflexivity|].
    split; [now constructor | now apply matches_star_atom].
Qed.

Lemma in_notSpaceAt (c : N) : in_class notSpaceAt c = true <-> plain c.
Proof.
  unfold plain, notSpaceAt, in_class. simpl.
  rewrite negb_true_iff, orb_false_iff, orb_false_r, N.eqb_neq. tauto.
Qed.

Lemma in_notSpace (c : N) : in_class notSpace c = true <-> isWhiteSpace c = false.
Proof.
  unfold notSpace, in_class. simpl.
  rewrite negb_true_iff, orb_false_r. tauto.
Qed.

Lemma in_lit (x c : N) : in_class (Lit x) c = true <-> c = x.
Proof. simpl. apply N.eqb_eq. Qed.

Lemma plain_run (s : jsstring) :
  Matches (Plus (Atom notSpaceAt)) s <-> s <> [] /\ Forall plain s.
Proof.
  rewrite matches_plus_atom.
  assert (E : Forall (fun c => in_class notSpaceAt c = true) s <-> Forall plain s).
  { split; intros F; (eapply Forall_impl; [exact F|]); intros c; apply in_notSpaceAt. }
  tauto.
Qed.

(** The source's expression accepts exactly the strings of the shape
    local [@] domain [.] tld, each part non-empty and free of whitespace
    and [@]. *)
Lemma emailRegex_shape (s : jsstring) :
  test emailRegex s = true <-> EmailShape s.
Proof.
  rewrite test_spec. unfold emailRegex, EmailShape. split.
  - intros H.
    apply matches_cat in H as [l [s1 [-> [Hl H]]]].
    apply matches_cat in H as [a [s2 [-> [Ha H]]]].
    apply matches_cat in H as [d [s3 [-> [Hd H]]]].
    apply matches_cat in H as [p [t [-> [Hp Ht]]]].
    apply matches_atom in Ha as [ca [-> Ka]]. apply in_lit in Ka as ->.
    apply matches_atom in Hp as [cp [-> Kp]]. apply in_lit in Kp as ->.
    apply plain_run in Hl as [? ?], Hd as [? ?], Ht as [? ?].
    exists l, d, t. simpl. auto 10.
  - intros [l [d [t [-> [Hl [Hd [Ht [Fl [Fd Ft]]]]]]]]].
    apply MCat; [now apply plain_run|].
    apply (MCat _ _ [AT]); [constructor; now apply in_lit|].
    apply MCat; [now apply plain_run|].
    apply (MCat _ _ [DOT]); [constructor; now apply in_lit|].
    now apply plain_run.
Qed.

(** An address the expression accepts holds no whitespace. *)
Lemma emailRegex_no_space (s : jsstring) :
  test emailRegex s = true -> Forall (fun c => isWhiteSpace c = false) s.
Proof.
  intros H. apply emailRegex_shape in H
    as [l [d [t [-> [_ [_ [_ [Fl [Fd Ft]]]]]]]]].
  assert (P : forall u, Forall plain u -> Forall (fun c => isWhiteSpace c = false) u).
  { intros u F. eapply Forall_impl; [exact F|]. now intros c [W _]. }
  apply Forall_app; split; [now apply P|].
  apply Forall_cons; split; [reflexivity|].
  apply Forall_app; split; [now apply P|].
  apply Forall_cons; split; [reflexivity | now apply P].
Qed.

Lemma emailRegex_nonempty (s : jsstring) : test emailRegex s = true -> s <> [].
Proof.
  intros H. apply emailRegex_shape in H as [l [d [t [-> _]]]].
  destruct l; discriminate.
Qed.

(** Whatever the expression accepts, the pattern as the specification
    words it accepts too. *)
Lemma emailRegex_within_spec_pattern (s : jsstring) :
  test emailRegex s = true -> test spec_email_pattern s = true.
Proof.
  rewrite !test_spec. unfold emailRegex, spec_email_pattern. intros H.
  apply matches_cat in H as [l [s1 [-> [Hl H]]]].
  apply matches_cat in H as [a [s2 [-> [Ha H]]]].
  apply matches_cat in H as [d [s3 [-> [Hd H]]]].
  apply matches_cat in H as [p [t [-> [Hp Ht]]]].
  repeat (apply MCat; try assumption).
  apply matches_plus_atom in Ht as [Hne Ft]. apply matches_plus_atom.
  split; [exact Hne|]. eapply Forall_impl; [exact Ft|]. intros c K.
  apply in_notSpace. apply in_notSpaceAt in K. apply K.
Qed.

(** ** The validating handler, step by step *)

Lemma filled_inv (v : jsvalue) :
  filled v = true -> exists s, v = JString s /\ trim s <> [] /\ s <> [].
Proof.
  destruct v as [|s|t sh| |sho ca]; simpl; try discriminate.
  intros H. apply negb_true_iff, bool_decide_eq_false in H.
  exists s. repeat split; [exact H|]. intros ->. now apply H.
Qed.

Lemma is_blank_filled (field : string) (v : jsvalue) :
  filled v = true -> is_blank field v = Normal false.
Proof.
  intros H. apply filled_inv in H as [s [-> [Ht Hs]]].
  unfold is_blank. simpl.
  rewrite (bool_decide_eq_false_2 _ Hs). simpl.
  now rewrite (bool_decide_eq_false_2 _ Ht).
Qed.

Lemma is_blank_missing (field : string) (v : jsvalue) :
  missing v = true -> is_blank field v = Normal true.
Proof.
  destruct v as [|s|t sh| |sho ca]; simpl; intros H; unfold is_blank; simpl.
  - reflexivity.
  - destruct (bool_decide (s = [])); simpl; [reflexivity|]. now rewrite H.
  - apply negb_true_iff in H. now rewrite H.
  - reflexivity.
  - discriminate.
Qed.

Lemma optional_trim (field : string) (v : jsvalue) :
  optional v = true ->
  (if truthy v then call_trim field v else Normal []) = Normal (optional_text v).
Proof.
  destruct v as [|s|t sh| |sho ca]; simpl; intros H.
  - reflexivity.
  - destruct (bool_decide (s = [])) eqn:E; simpl; [|reflexivity].
    apply bool_decide_eq_true in E. now subst s.
  - apply negb_true_iff in H. now rewrite H.
  - reflexivity.
  - discriminate.
Qed.

Lemma accepted_email_trim (e : jsstring) :
  test emailRegex e = true -> trim e = e /\ e <> [].
Proof.
  intros H. split.
  - apply trim_no_space. now apply emailRegex_no_space.
  - now apply emailRegex_nonempty.
Qed.

(** An acceptable request reaches [save] with the expected document. *)
Lemma submit_try_acceptable (w : Ambient) (req : request) (st : Validating.store) :
  acceptable (body req) = true ->
  Validating.submit_try w req st =
    (let! st' := Validating.save w (expected_document w req) st in
     Normal (created (oid w), st')).
Proof.
  unfold acceptable. rewrite !andb_true_iff. intros [[[Hn He] Hm] Hg].
  unfold Validating.submit_try.
  destruct (Body.email (body req)) as [|e|t sh| |sho ca] eqn:Ee; try discriminate.
  destruct (accepted_email_trim _ He) as [Te Ne].
  rewrite (is_blank_filled _ _ Hn). simpl.
  assert (Fe : filled (JString e) = true).
  { simpl. rewrite Te. now rewrite (bool_decide_eq_false_2 _ Ne). }
  rewrite (is_blank_filled _ _ Fe). simpl. rewrite He. simpl.
  destruct (filled_inv _ Hn) as [n [En _]].
  rewrite (optional_trim _ _ Hm), (optional_trim _ _ Hg). simpl.
  unfold expected_document. rewrite En, Ee. reflexivity.
Qed.

(** What Mongoose's required-validators would reject never leaves the
    handler's own validation. *)
Lemma schema_accepts_expected (w : Ambient) (req : request) :
  acceptable (body req) = true ->
  Validating.schema_errors (expected_document w req) = [].
Proof.
  unfold acceptable. rewrite !andb_true_iff. intros [[[Hn He] _] _].
  destruct (filled_inv _ Hn) as [n [En [Tn _]]].
  destruct (Body.email (body req)) as [|e|t sh| |sho ca] eqn:Ee; try discriminate.
  destruct (accepted_email_trim _ He) as [Te Ne].
  unfold Validating.schema_errors, expected_document. simpl.
  rewrite En, Ee. simpl. rewrite Te.
  now rewrite (bool_decide_eq_false_2 _ Tn), (bool_decide_eq_false_2 _ Ne).
Qed.

(** With the persistence layer up and the identifier unused, an
    acceptable request is stored and answered with 201. *)
Lemma submit_acceptable (cfg : Config) (w : Ambient) (req : request)
    (st : Validating.store) :
  acceptable (body req) = true ->
  fault w = None -> st !! oid w = None ->
  Validating.submit cfg w req st =
    (created (oid w), <[oid w := expected_document w req]> st).
Proof.
  intros Ha Hf Hi. unfold Validating.submit.
  rewrite (submit_try_acceptable _ _ _ Ha). unfold Validating.save.
  rewrite (schema_accepts_expected _ _ Ha), Hf. simpl.
  change (Validating._id (expected_document w req)) with (oid w).
  now rewrite Hi.
Qed.

(** A rejected save of an acceptable request goes to the [catch] block
    and leaves the collection as it was. *)
Lemma submit_rejected (cfg : Config) (w : Ambient) (req : request)
    (st : Validating.store) (err : js_error) :
  acceptable (body req) = true ->
  Validating.save w (expected_document w req) st = Throw err ->
  Validating.submit cfg w req st = (Validating.submit_catch cfg err, st).
Proof.
  intros Ha Hs. unfold Validating.submit.
  rewrite (submit_try_acceptable _ _ _ Ha), Hs. reflexivity.
Qed.

Lemma submit_catch_status (cfg : Config) (err : js_error) :
  status (Validating.submit_catch cfg err) = 400 \/
  status (Validating.submit_catch cfg err) = 500.
Proof.
  unfold Validating.submit_catch.
  destruct (String.eqb (err_name err) "ValidationError"); [now left|].
  destruct (_ || _); now right.
Qed.

(** Every answer of the handler that is not the 201 of an acceptable
    request leaves the collection as it was. *)
Lemma submit_not_acceptable (cfg : Config) (w : Ambient) (req : request)
    (st : Validating.store) :
  acceptable (body req) = false ->
  exists r, Validating.submit cfg w req st = (r, st) /\ status r <> 201.
Proof.
  assert (C : forall e, exists r,
             (Validating.submit_catch cfg e, st) = (r, st) /\ status r <> 201).
  { intros e. eexists. split; [reflexivity|].
    destruct (submit_catch_status cfg e) as [-> | ->]; discriminate. }
  assert (V : forall d f, exists r,
             (Validating.validation_failed d f, st) = (r, st) /\ status r <> 201).
  { intros d f. eexists. split; [reflexivity | discriminate]. }
  intros Ha. unfold Validating.submit, Validating.submit_try.
  destruct (is_blank "name" (Body.name (body req))) as [[|]|e] eqn:Bn;
    simpl; [apply V | | apply C].
  destruct (is_blank "email" (Body.email (body req))) as [[|]|e] eqn:Be;
    simpl; [apply V | | apply C].
  destruct (test emailRegex (ToString (Body.email (body req)))) eqn:Te;
    simpl; [| apply V].
  destruct (call_trim "name" (Body.name (body req))) as [n'|e] eqn:Cn;
    simpl; [| apply C].
  destruct (call_trim "email" (Body.email (body req))) as [e'|e] eqn:Ce;
    simpl; [| apply C].
  destruct (if truthy (Body.mobile (body req)) then _ else _) as [m'|e] eqn:Cm;
    simpl; [| apply C].
  destruct (if truthy (Body.message (body req)) then _ else _) as [g'|e] eqn:Cg;
    simpl; [| apply C].
  exfalso. revert Ha. unfold acceptable.
  destruct (Body.name (body req)) as [|n|tn sn| |on cn]; try discriminate.
  destruct (Body.email (body req)) as [|em|te se| |oe ce]; try discriminate.
  simpl in Te. rewrite Te.
  unfold is_blank in Bn. simpl in Bn.
  destruct (bool_decide (n = [])); simpl in Bn; [discriminate|].
  injection Bn as Bn. simpl. rewrite Bn. simpl.
  destruct (Body.mobile (body req)) as [|m|tm sm| |om cm];
    destruct (Body.message (body req)) as [|g|tg sg| |og cg]; simpl; try discriminate;
    try (destruct tm; simpl in *; try discriminate);
    try (destruct tg; simpl in *; discriminate).
Qed.

(** The exact circumstances of a 201 answer. *)
Lemma submit_created_inv (cfg : Config) (w : Ambient) (req : request)
    (st st' : Validating.store) (r : response) :
  Validating.submit cfg w req st = (r, st') -> status r = 201 ->
  acceptable (body req) = true /\ fault w = None /\ st !! oid w = None /\
  r = created (oid w) /\ st' = <[oid w := expected_document w req]> st.
Proof.
  intros Hs H201. destruct (acceptable (body req)) eqn:Ha.
  - revert Hs. unfold Validating.submit.
    rewrite (submit_try_acceptable _ _ _ Ha). unfold Validating.save.
    rewrite (schema_accepts_expected _ _ Ha).
    change (Validating._id (expected_document w req)) with (oid w).
    assert (C : forall e, (Validating.submit_catch cfg e, st) = (r, st') -> False).
    { intros e E. injection E as <- _.
      destruct (submit_catch_status cfg e) as [X | X]; rewrite X in H201;
        discriminate. }
    destruct (fault w) as [e|]; simpl; [intros E; destruct (C _ E)|].
    destruct (st !! oid w) as [d|]; simpl; [intros E; destruct (C _ E)|].
    intros E. injection E as <- <-. auto.
  - destruct (submit_not_acceptable cfg w req st Ha) as [r0 [E N]].
    rewrite E in Hs. injection Hs as -> _. contradiction.
Qed.

(** ** Missing fields *)

(** C1, as amended: in the validating server, a request whose [name] is
    absent or empty after trimming, or whose [name] is non-empty text
    and whose [email] is absent or empty after trimming, is answered
    with status 400 and a body whose [field] names the offending field
    ([name] first), and the collection is left as it was. *)
Theorem missing_field_rejected (cfg : Config) (w : Ambient) (req : request)
    (st : Validating.store) :
  missing (Body.name (body req)) = true \/
  (filled (Body.name (body req)) = true /\
   missing (Body.email (body req)) = true) ->
  let out := Validating.submit cfg w req st in
  status out.1 = 400 /\
  field_of "error" (body_json out.1) = Some (JStr "Validation failed") /\
  field_of "field" (body_json out.1) =
    Some (JStr (if missing (Body.name (body req)) then "name" else "email")) /\
  out.2 = st.
Proof.
  intros [Hn | [Hn He]]; unfold Validating.submit, Validating.submit_try; simpl.
  - rewrite (is_blank_missing _ _ Hn), Hn. simpl. auto.
  - rewrite (is_blank_filled _ _ Hn). simpl.
    rewrite (is_blank_missing _ _ He). simpl.
    destruct (filled_inv _ Hn) as [n [-> [Tn _]]]. simpl.
    rewrite (bool_decide_eq_false_2 _ Tn). auto.
Qed.

Lemma missing_field_rejected_witness :
  (missing (Body.name (body nameless)) = true \/
   (filled (Body.name (body nameless)) = true /\
    missing (Body.email (body nameless)) = true)) /\
  status (Validating.submit production (calm 1000 7) nameless ∅).1 = 400 /\
  field_of "field"
    (body_json (Validating.submit production (calm 1000 7) nameless ∅).1) =
    Some (JStr "name") /\
  (Validating.submit production (calm 1000 7) nameless ∅).2 = ∅.
Proof.
  assert (H : missing (Body.name (body nameless)) = true \/
              (filled (Body.name (body nameless)) = true /\
               missing (Body.email (body nameless)) = true))
    by (left; reflexivity).
  split; [exact H|].
  destruct (missing_field_rejected production (calm 1000 7) nameless ∅ H)
    as [S [_ [F E]]].
  exact (conj S (conj F E)).
Defined.

(** C1 as stated fails: the disk-storage servers validate nothing and
    store a form without a name, answering 201; and in the validating
    server a form whose [name] is an array and whose [email] is absent
    is answered with 500. *)
Lemma missing_name_stored_without_validation :
  status (Disk.submit (calm 1000 7) nameless ∅).1 = 201 /\
  (Disk.name <$> (Disk.submit (calm 1000 7) nameless ∅).2 !! 7) = Some Disk.Unset /\
  status (Validating.submit production (calm 1000 7) name_array ∅).1 = 500.
Proof.
  unfold Disk.submit, Disk.save. simpl. rewrite lookup_empty. simpl.
  rewrite lookup_insert_eq. simpl. auto.
Qed.

(** ** Successful submissions *)

(** The disk-storage handler stores a form whose fields all cast. *)
Lemma disk_submit_stored (w : Ambient) (req : request) (dst : Disk.store) :
  Disk.cast_errors (body req) = [] ->
  fault w = None -> dst !! oid w = None ->
  Disk.submit w req dst = (saved, <[oid w := stored_as_sent w req]> dst).
Proof.
  intros Hc Hf Hi. unfold Disk.submit, Disk.save. rewrite Hc, Hf.
  change (Disk._id (Disk.new_Submission w (body req) _)) with (oid w).
  now rewrite Hi.
Qed.

(** The fields of an acceptable form all cast: the name and the address
    are strings, an optional field is a string, left out, [null] or a
    falsy number or boolean. *)
Lemma acceptable_casts (b : Body.t) :
  acceptable b = true -> Disk.cast_errors b = [].
Proof.
  unfold acceptable, Disk.cast_errors. rewrite !andb_true_iff.
  intros [[[Hn He] Hm] Hg].
  destruct (Body.name b); try discriminate.
  destruct (Body.email b); try discriminate.
  destruct (Body.mobile b); try discriminate;
    destruct (Body.message b); try discriminate; reflexivity.
Qed.

(** C2, as amended: in the validating server, a request that passes
    validation (optional fields text or absent), with the persistence
    layer up and the identifier unused, adds exactly one document to the
    collection and is answered with 201 and the body
    [{success: true, message: "Submission saved successfully",
    submissionId: <the new document's _id>}]. The disk-storage servers
    add one document as well and answer 201 with
    [{message: "Submission saved successfully"}] only. *)
Theorem valid_submission_created (cfg : Config) (w : Ambient) (req : request)
    (st : Validating.store) (dst : Disk.store) :
  acceptable (body req) = true ->
  fault w = None -> st !! oid w = None -> dst !! oid w = None ->
  let out := Validating.submit cfg w req st in
  let dout := Disk.submit w req dst in
  out.1 = {| status := 201;
             body_json := [ ("success", JBool true);
                            ("message", JStr "Submission saved successfully");
                            ("submissionId", JOid (oid w)) ]%string |} /\
  (exists d, Validating._id d = oid w /\ out.2 = <[oid w := d]> st) /\
  size out.2 = S (size st) /\
  dout.1 = {| status := 201;
              body_json := [ ("message",
                              JStr "Submission saved successfully") ]%string |} /\
  size dout.2 = S (size dst).
Proof.
  intros Ha Hf Hi Hd. simpl.
  rewrite (submit_acceptable cfg _ _ _ Ha Hf Hi),
    (disk_submit_stored _ _ _ (acceptable_casts _ Ha) Hf Hd).
  simpl. repeat split.
  - exists (expected_document w req). auto.
  - now apply map_size_insert_None.
  - now apply map_size_insert_None.
Qed.

Lemma valid_submission_created_witness :
  (acceptable (body jane) = true /\ fault (calm 1000 7) = None /\
   (∅ : Validating.store) !! oid (calm 1000 7) = None /\
   (∅ : Disk.store) !! oid (calm 1000 7) = None) /\
  (Validating.submit production (calm 1000 7) jane ∅).1 =
    {| status := 201;
       body_json := [ ("success", JBool true);
                      ("message", JStr "Submission saved successfully");
                      ("submissionId", JOid 7) ]%string |} /\
  size (Validating.submit production (calm 1000 7) jane ∅).2 = 1%nat.
Proof.
  assert (Ha : acceptable (body jane) = true) by (vm_compute; reflexivity).
  assert (Hf : fault (calm 1000 7) = None) by reflexivity.
  assert (Hi : (∅ : Validating.store) !! oid (calm 1000 7) = None)
    by apply lookup_empty.
  assert (Hd : (∅ : Disk.store) !! oid (calm 1000 7) = None)
    by apply lookup_empty.
  split; [auto|].
  destruct (valid_submission_created production (calm 1000 7) jane ∅ ∅
              Ha Hf Hi Hd) as [R [_ [S _]]].
  split; [exact R | exact S].
Defined.

(** C2 as stated fails in [src/server.js]: Jane's form is stored and
    answered with 201, but the body carries neither a [success] flag nor
    the identifier of the new document. *)
Lemma disk_answer_without_identifier :
  (Disk.submit (calm 1000 7) jane ∅).1 =
    {| status := 201;
       body_json := [ ("message", JStr "Submission saved successfully") ]%string |} /\
  field_of "success" (body_json (Disk.submit (calm 1000 7) jane ∅).1) = None /\
  field_of "submissionId" (body_json (Disk.submit (calm 1000 7) jane ∅).1) = None /\
  is_Some ((Disk.submit (calm 1000 7) jane ∅).2 !! 7).
Proof.
  rewrite (disk_submit_stored (calm 1000 7) jane ∅ eq_refl eq_refl
             (lookup_empty _)).
  simpl. rewrite lookup_insert_eq. repeat split. eauto.
Qed.

(** ** Reading the stored document back *)

(** C5, as amended: in the validating server, the document stored for an
    accepted request and read back under the identifier of the answer
    holds the trimmed [name], [email], [mobile] and [message] (the empty
    string for an optional field left out) and the content, type and
    name of the attached file; every other document is as before. The
    disk-storage servers store the text fields as sent, untrimmed (a
    field left out stays unset, any other value is stored as Mongoose's
    cast leaves it), and the path of the uploaded file. *)
Theorem stored_document_read_back (cfg : Config) (w : Ambient) (req : request)
    (st : Validating.store) (dst : Disk.store) (n e : jsstring) :
  Body.name (body req) = JString n -> Body.email (body req) = JString e ->
  acceptable (body req) = true ->
  fault w = None -> st !! oid w = None -> dst !! oid w = None ->
  let out := Validating.submit cfg w req st in
  let dout := Disk.submit w req dst in
  field_of "submissionId" (body_json out.1) = Some (JOid (oid w)) /\
  (exists d, out.2 !! oid w = Some d /\
     Validating.name d = trim n /\
     Validating.email d = trim e /\
     Validating.mobile d = optional_text (Body.mobile (body req)) /\
     Validating.message d = optional_text (Body.message (body req)) /\
     Validating.resume d =
       ((fun f => {| Validating.data := File.buffer f;
                     Validating.contentType := File.mimetype f;
                     Validating.originalName := File.originalname f |})
          <$> file req)) /\
  (forall k, k <> oid w -> out.2 !! k = st !! k) /\
  (exists dd, dout.2 !! oid w = Some dd /\
     Disk.name dd = Disk.Text n /\
     Disk.email dd = Disk.Text e /\
     (forall m, Body.mobile (body req) = JString m ->
        Disk.mobile dd = Disk.Text m) /\
     (Body.mobile (body req) = JUndefined -> Disk.mobile dd = Disk.Unset) /\
     (forall g, Body.message (body req) = JString g ->
        Disk.message dd = Disk.Text g) /\
     (Body.message (body req) = JUndefined -> Disk.message dd = Disk.Unset) /\
     Disk.cast (Body.mobile (body req)) = Some (Disk.mobile dd) /\
     Disk.cast (Body.message (body req)) = Some (Disk.message dd) /\
     Disk.resumePath dd = match file req with
                          | Some f => File.path f
                          | None => []
                          end).
Proof.
  intros En Ee Ha Hf Hi Hd. simpl.
  rewrite (submit_acceptable cfg _ _ _ Ha Hf Hi),
    (disk_submit_stored _ _ _ (acceptable_casts _ Ha) Hf Hd).
  simpl. split; [reflexivity|]. split; [|split].
  - exists (expected_document w req). rewrite lookup_insert_eq.
    unfold expected_document. simpl. rewrite En, Ee. auto 10.
  - intros k Hk. now apply lookup_insert_ne.
  - exists (stored_as_sent w req). rewrite lookup_insert_eq.
    unfold stored_as_sent, Disk.new_Submission. simpl. rewrite En, Ee. simpl.
    unfold acceptable in Ha. rewrite !andb_true_iff in Ha.
    destruct Ha as [[_ Hm] Hg].
    split; [reflexivity|]. split; [reflexivity|]. split; [reflexivity|].
    repeat split.
    + intros m ->. reflexivity.
    + intros ->. reflexivity.
    + intros g ->. reflexivity.
    + intros ->. reflexivity.
    + destruct (Body.mobile (body req)); try discriminate; reflexivity.
    + destruct (Body.message (body req)); try discriminate; reflexivity.
Qed.

Lemma stored_document_read_back_witness :
  (Body.name (body padded_jane) = JString (js " Jane Doe ") /\
   Body.email (body padded_jane) = JString (js "jane@example.com") /\
   acceptable (body padded_jane) = true /\ fault (calm 1000 7) = None /\
   (∅ : Validating.store) !! oid (calm 1000 7) = None /\
   (∅ : Disk.store) !! oid (calm 1000 7) = None) /\
  exists d, (Validating.submit production (calm 1000 7) padded_jane ∅).2 !! 7 = Some d /\
    Validating.name d = js "Jane Doe" /\
    Validating.email d = js "jane@example.com" /\
    Validating.mobile d = [] /\ Validating.message d = [] /\
    Validating.resume d = None.
Proof.
  assert (Ha : acceptable (body padded_jane) = true) by (vm_compute; reflexivity).
  assert (Hi : (∅ : Validating.store) !! oid (calm 1000 7) = None)
    by apply lookup_empty.
  assert (Hd : (∅ : Disk.store) !! oid (calm 1000 7) = None)
    by apply lookup_empty.
  split; [auto 10|].
  destruct (stored_document_read_back production (calm 1000 7) padded_jane ∅ ∅
              (js " Jane Doe ") (js "jane@example.com")
              eq_refl eq_refl Ha eq_refl Hi Hd)
    as [_ [[d [L [Dn [De [Dm [Dg Dr]]]]]] _]].
  exists d. split; [exact L|].
  split; [exact Dn|]. split; [exact De|]. auto.
Defined.

(** C5 as stated fails in [src/server.js]: the name is stored with the
    blanks it was sent with, not trimmed. *)
Lemma disk_stores_untrimmed_name :
  (Disk.name <$> (Disk.submit (calm 1000 7) padded_jane ∅).2 !! 7) =
    Some (Disk.Text (js " Jane Doe ")) /\
  trim (js " Jane Doe ") = js "Jane Doe" /\
  js " Jane Doe " <> trim (js " Jane Doe ").
Proof.
  rewrite (disk_submit_stored (calm 1000 7) padded_jane ∅ eq_refl eq_refl
             (lookup_empty _)).
  simpl. rewrite lookup_insert_eq. repeat split. discriminate.
Qed.

(** ** Optional fields *)

(** C6, as amended: in the validating server, the document stored for a
    request that leaves out [mobile] (respectively [message]) holds the
    empty string for that field. *)
Theorem absent_optional_stored_empty (cfg : Config) (w : Ambient) (req : request)
    (st : Validating.store) :
  status (Validating.submit cfg w req st).1 = 201 ->
  exists d, (Validating.submit cfg w req st).2 !! oid w = Some d /\
    (Body.mobile (body req) = JUndefined -> Validating.mobile d = []) /\
    (Body.message (body req) = JUndefined -> Validating.message d = []).
Proof.
  destruct (Validating.submit cfg w req st) as [r st'] eqn:E. simpl.
  intros H. destruct (submit_created_inv _ _ _ _ _ _ E H) as [_ [_ [_ [_ ->]]]].
  exists (expected_document w req). rewrite lookup_insert_eq.
  split; [reflexivity|]. unfold expected_document. simpl.
  split; intros ->; reflexivity.
Qed.

Lemma absent_optional_stored_empty_witness :
  status (Validating.submit production (calm 1000 7) jane ∅).1 = 201 /\
  exists d, (Validating.submit production (calm 1000 7) jane ∅).2 !! 7 = Some d /\
    Validating.mobile d = [] /\ Validating.message d = [].
Proof.
  assert (H : status (Validating.submit production (calm 1000 7) jane ∅).1 = 201).
  { rewrite (submit_acceptable production (calm 1000 7) jane ∅);
      [reflexivity | vm_compute; reflexivity | reflexivity | apply lookup_empty]. }
  split; [exact H|].
  destruct (absent_optional_stored_empty production (calm 1000 7) jane ∅ H)
    as [d [L [M G]]].
  exists d. split; [exact L|]. split; [apply M | apply G]; reflexivity.
Defined.

(** C6 as stated fails in [src/server.js]: the schema has no default, so
    a form without [mobile] and [message] is stored with both unset. *)
Lemma disk_leaves_optional_unset :
  (Disk.mobile <$> (Disk.submit (calm 1000 7) jane ∅).2 !! 7) = Some Disk.Unset /\
  (Disk.message <$> (Disk.submit (calm 1000 7) jane ∅).2 !! 7) = Some Disk.Unset /\
  Disk.Unset <> Disk.Text [].
Proof.
  rewrite (disk_submit_stored (calm 1000 7) jane ∅ eq_refl eq_refl
             (lookup_empty _)).
  simpl. rewrite lookup_insert_eq. repeat split. discriminate.
Qed.

(** ** The format of the address *)

Lemma catch_names_no_field (cfg : Config) (err : js_error) :
  field_of "field" (body_json (Validating.submit_catch cfg err)) = None.
Proof.
  unfold Validating.submit_catch.
  destruct (String.eqb (err_name err) "ValidationError"); [reflexivity|].
  destruct (_ || _); reflexivity.
Qed.

(** C3, as amended: the pattern is "one or more non-space/non-@
    characters, @, one or more non-space/non-@ characters, ., one or
    more non-space/non-@ characters". In the validating server, for a
    request that reaches the handler (its resume, if any, is within the
    upload limit) with a non-empty text [name] and a non-empty text
    [email],
    the format check passes exactly for the addresses of that shape; an
    address not of that shape is answered with status 400 citing field
    [email] and nothing is persisted, and for an address of that shape
    the answer cites no field. *)
Theorem email_format_checked (cfg : Config) (w : Ambient) (req : request)
    (st : Validating.store) (e : jsstring) :
  filled (Body.name (body req)) = true ->
  Body.email (body req) = JString e -> e <> [] ->
  let out := Validating.submit cfg w req st in
  (test emailRegex e = true <-> EmailShape e) /\
  (~ EmailShape e ->
     status out.1 = 400 /\
     field_of "field" (body_json out.1) = Some (JStr "email") /\
     out.2 = st) /\
  (EmailShape e -> field_of "field" (body_json out.1) = None).
Proof.
  intros Hn Ee Ne. simpl. split; [apply emailRegex_shape|].
  unfold Validating.submit, Validating.submit_try.
  rewrite (is_blank_filled _ _ Hn), Ee. simpl.
  unfold is_blank. simpl. rewrite (bool_decide_eq_false_2 _ Ne). simpl.
  split.
  - intros Hs. destruct (bool_decide (trim e = [])); simpl; [auto|].
    destruct (test emailRegex e) eqn:T; simpl; [|auto].
    apply emailRegex_shape in T. contradiction.
  - intros Hs. apply emailRegex_shape in Hs.
    destruct (accepted_email_trim _ Hs) as [Te _].
    rewrite Te, (bool_decide_eq_false_2 _ Ne), Hs. simpl.
    destruct (filled_inv _ Hn) as [n [-> _]]. simpl.
    destruct (if truthy (Body.mobile (body req)) then _ else _) as [m'|err];
      simpl; [|apply catch_names_no_field].
    destruct (if truthy (Body.message (body req)) then _ else _) as [g'|err];
      simpl; [|apply catch_names_no_field].
    destruct (Validating.save _ _ _) as [st'|err];
      simpl; [reflexivity | apply catch_names_no_field].
Qed.

Lemma email_format_checked_witness :
  (filled (Body.name (body two_ats)) = true /\
   Body.email (body two_ats) = JString (js "a@b.c@") /\
   js "a@b.c@" <> []) /\
  (test emailRegex (js "a@b.c@") = true <-> EmailShape (js "a@b.c@")) /\
  (~ EmailShape (js "a@b.c@") ->
   status (Validating.submit production (calm 1000 7) two_ats ∅).1 = 400).
Proof.
  assert (Hn : filled (Body.name (body two_ats)) = true) by (vm_compute; reflexivity).
  assert (Ne : js "a@b.c@" <> []) by discriminate.
  split; [auto|].
  destruct (email_format_checked production (calm 1000 7) two_ats ∅
              (js "a@b.c@") Hn eq_refl Ne) as [I [R _]].
  split; [exact I|]. intros Hs. exact (proj1 (R Hs)).
Defined.

(** C3 as stated fails: [a@b.c@] is of the pattern as the specification
    words it (the last part may hold an [@]), yet the source's
    expression rejects it and the request is answered with 400. *)
Lemma spec_pattern_address_rejected :
  test spec_email_pattern (js "a@b.c@") = true /\
  test emailRegex (js "a@b.c@") = false /\
  Validating.submit production (calm 1000 7) two_ats ∅ =
    (Validating.validation_failed "Please enter a valid email address" "email", ∅).
Proof. vm_compute. auto. Qed.

(** ** Rejected saves *)

(** C4: when the save of a request is rejected with [err], nothing is
    persisted; a [ValidationError] is answered with status 400 and the
    keys of [err.errors] under [fields]; any other error is answered
    with status 500 and a generic [error] text, and [details] is
    [err.message] in development mode and a fixed text otherwise. *)
Theorem save_rejection_answered (cfg : Config) (w : Ambient) (req : request)
    (st : Validating.store) (err : js_error) :
  acceptable (body req) = true ->
  Validating.save w (expected_document w req) st = Throw err ->
  let out := Validating.submit cfg w req st in
  out.2 = st /\
  (err_name err = "ValidationError"%string ->
     status out.1 = 400 /\
     field_of "fields" (body_json out.1) = Some (JKeys (err_errors err))) /\
  (err_name err <> "ValidationError"%string ->
     let store_error :=
       String.eqb (err_name err) "MongoError"
       || String.eqb (err_name err) "MongoServerError" in
     status out.1 = 500 /\
     field_of "error" (body_json out.1) =
       Some (JStr (if store_error then "Database error" else "Server error")) /\
     field_of "details" (body_json out.1) =
       Some (JStr (if development cfg then err_message err
                   else if store_error then "Database connection issue"
                        else "Internal server error"))).
Proof.
  intros Ha Hs. simpl. rewrite (submit_rejected cfg _ _ _ _ Ha Hs). simpl.
  split; [reflexivity|]. unfold Validating.submit_catch. split.
  - intros ->. simpl. auto.
  - intros Hne. apply String.eqb_neq in Hne. rewrite Hne.
    destruct (_ || _); simpl; auto.
Qed.

Lemma save_rejection_answered_witness :
  (acceptable (body jane) = true /\
   Validating.save (failing network_error)
     (expected_document (failing network_error) jane) ∅ = Throw network_error) /\
  (Validating.submit production (failing network_error) jane ∅).2 = ∅ /\
  (err_name network_error <> "ValidationError"%string ->
   status (Validating.submit production (failing network_error) jane ∅).1 = 500 /\
   field_of "details"
     (body_json (Validating.submit production (failing network_error) jane ∅).1) =
     Some (JStr "Internal server error")).
Proof.
  assert (Ha : acceptable (body jane) = true) by (vm_compute; reflexivity).
  assert (Hs : Validating.save (failing network_error)
                 (expected_document (failing network_error) jane) ∅
               = Throw network_error) by (vm_compute; reflexivity).
  split; [auto|].
  destruct (save_rejection_answered production (failing network_error) jane ∅
              network_error Ha Hs) as [E [_ O]].
  split; [exact E|]. intros Hne. destruct (O Hne) as [S [_ D]].
  split; [exact S | exact D].
Defined.

(** ** Uploads over the size limit *)

(** A request without a file, or with one within the limit, reaches the
    handler unchanged. *)
Lemma post_submit_within_limit (cfg : Config) (w : Ambient) (req : request)
    (st : Validating.store) :
  (forall f, file req = Some f -> File.size f <= Validating.fileSize) ->
  Validating.post_submit cfg w req st = Validating.submit cfg w req st.
Proof.
  intros H. unfold Validating.post_submit, Validating.upload_single.
  destruct (file req) as [f|]; [|reflexivity].
  specialize (H f eq_refl). apply N.ltb_ge in H. now rewrite H.
Qed.

(** C7, as amended: in the validating server, which limits uploads to
    5 MB, a request whose resume is larger never reaches the handler:
    multer's error goes to the error-handling middleware, which answers
    with status 500 and [{error: "Internal server error"}], adding
    [details: "File too large"] in development mode only; the body
    names no field and nothing is persisted. *)
Theorem oversized_upload_answered (cfg : Config) (w : Ambient) (req : request)
    (st : Validating.store) (f : File.t) :
  file req = Some f -> Validating.fileSize < File.size f ->
  let out := Validating.post_submit cfg w req st in
  status out.1 = 500 /\
  field_of "error" (body_json out.1) = Some (JStr "Internal server error") /\
  field_of "details" (body_json out.1) =
    (if development cfg then Some (JStr "File too large") else None) /\
  field_of "field" (body_json out.1) = None /\
  out.2 = st.
Proof.
  intros Hf Hs. simpl. unfold Validating.post_submit, Validating.upload_single.
  rewrite Hf. apply N.ltb_lt in Hs. rewrite Hs. simpl.
  destruct (development cfg); simpl; auto.
Qed.

Lemma oversized_upload_answered_witness :
  (file big_resume = Some {| File.originalname := js "cv.pdf";
                             File.mimetype := js "application/pdf";
                             File.size := 5 * 1024 * 1024 + 1;
                             File.buffer := [];
                             File.path := [] |} /\
   Validating.fileSize < 5 * 1024 * 1024 + 1) /\
  status (Validating.post_submit production (calm 1000 7) big_resume ∅).1 = 500 /\
  (Validating.post_submit production (calm 1000 7) big_resume ∅).2 = ∅.
Proof.
  assert (Hs : Validating.fileSize < 5 * 1024 * 1024 + 1) by (vm_compute; reflexivity).
  split; [split; [reflexivity | exact Hs]|].
  destruct (oversized_upload_answered production (calm 1000 7) big_resume ∅ _
              eq_refl Hs) as [S [_ [_ [_ E]]]].
  split; [exact S | exact E].
Defined.

(** C7 as stated fails: a resume of 5 MB and one byte is answered with
    status 500, not 400, and the body names no field. *)
Lemma oversized_upload_not_400 :
  Validating.post_submit production (calm 1000 7) big_resume ∅ =
    ({| status := 500;
        body_json := [ ("error", JStr "Internal server error") ]%string |}, ∅) /\
  status (Validating.post_submit production (calm 1000 7) big_resume ∅).1 <> 400.
Proof. vm_compute. split; [reflexivity | discriminate]. Qed.

(** ** Submitting twice *)

(** With the persistence layer up and two unused, different identifiers
    drawn, both submissions of an acceptable request are answered
    with 201. *)
Lemma resubmission_accepted (cfg : Config) (w1 w2 : Ambient) (req : request)
    (st : Validating.store) :
  acceptable (body req) = true ->
  fault w1 = None -> fault w2 = None ->
  st !! oid w1 = None -> st !! oid w2 = None -> oid w1 <> oid w2 ->
  status (Validating.submit cfg w1 req st).1 = 201 /\
  status (Validating.submit cfg w2 req (Validating.submit cfg w1 req st).2).1 = 201.
Proof.
  intros Ha F1 F2 I1 I2 Hne.
  rewrite (submit_acceptable cfg w1 _ _ Ha F1 I1). simpl.
  rewrite (submit_acceptable cfg w2 _ _ Ha F2); [auto|].
  now rewrite lookup_insert_ne.
Qed.

(** C8: when the same request is submitted twice and both submissions
    are answered with 201, the collection has gained two documents,
    stored under two different identifiers, which are the identifiers
    of the two answers; each document carries the clock reading of its
    own submission, and the second submission changed the collection
    again. *)
Theorem resubmission_adds_second_document (cfg : Config) (w1 w2 : Ambient)
    (req : request) (st : Validating.store) :
  let first := Validating.submit cfg w1 req st in
  let second := Validating.submit cfg w2 req first.2 in
  status first.1 = 201 -> status second.1 = 201 ->
  oid w1 <> oid w2 /\
  field_of "submissionId" (body_json first.1) = Some (JOid (oid w1)) /\
  field_of "submissionId" (body_json second.1) = Some (JOid (oid w2)) /\
  st !! oid w1 = None /\ st !! oid w2 = None /\
  (exists d1 d2,
     second.2 !! oid w1 = Some d1 /\ second.2 !! oid w2 = Some d2 /\
     d1 <> d2 /\
     Validating.createdAt d1 = now w1 /\ Validating.createdAt d2 = now w2 /\
     Validating.name d1 = Validating.name d2 /\
     Validating.email d1 = Validating.email d2 /\
     Validating.mobile d1 = Validating.mobile d2 /\
     Validating.message d1 = Validating.message d2 /\
     Validating.resume d1 = Validating.resume d2) /\
  size second.2 = S (S (size st)) /\
  second.2 <> first.2.
Proof.
  simpl.
  destruct (Validating.submit cfg w1 req st) as [r1 st1] eqn:E1. simpl.
  destruct (Validating.submit cfg w2 req st1) as [r2 st2] eqn:E2. simpl.
  intros H1 H2.
  destruct (submit_created_inv _ _ _ _ _ _ E1 H1) as [_ [_ [I1 [-> ->]]]].
  destruct (submit_created_inv _ _ _ _ _ _ E2 H2) as [_ [_ [I2 [-> ->]]]].
  assert (Hne : oid w1 <> oid w2).
  { intros Heq. rewrite <- Heq, lookup_insert_eq in I2. discriminate. }
  rewrite lookup_insert_ne in I2 by exact Hne.
  assert (S1 : size (<[oid w1 := expected_document w1 req]> st) = S (size st))
    by now apply map_size_insert_None.
  assert (I2' : <[oid w1 := expected_document w1 req]> st !! oid w2 = None)
    by now rewrite lookup_insert_ne.
  assert (S2 : size (<[oid w2 := expected_document w2 req]>
                       (<[oid w1 := expected_document w1 req]> st))
               = S (S (size st)))
    by (rewrite map_size_insert_None by exact I2'; now rewrite S1).
  repeat split; try reflexivity; try assumption.
  - exists (expected_document w1 req), (expected_document w2 req).
    rewrite lookup_insert_ne by (intros Heq; now apply Hne).
    rewrite !lookup_insert_eq. repeat split.
    intros Heq. apply Hne.
    exact (f_equal Validating._id Heq).
  - intros Heq. rewrite Heq, S1 in S2. lia.
Qed.

Lemma resubmission_adds_second_document_witness :
  (status (Validating.submit production (calm 1000 7) jane ∅).1 = 201 /\
   status (Validating.submit production (calm 1001 8) jane
             (Validating.submit production (calm 1000 7) jane ∅).2).1 = 201) /\
  size (Validating.submit production (calm 1001 8) jane
          (Validating.submit production (calm 1000 7) jane ∅).2).2 = 2%nat.
Proof.
  assert (H1 : status (Validating.submit production (calm 1000 7) jane ∅).1 = 201)
    by (vm_compute; reflexivity).
  assert (H2 : status (Validating.submit production (calm 1001 8) jane
                         (Validating.submit production (calm 1000 7) jane ∅).2).1
               = 201)
    by (vm_compute; reflexivity).
  split; [split; [exact H1 | exact H2]|].
  destruct (resubmission_adds_second_document production (calm 1000 7)
              (calm 1001 8) jane ∅ H1 H2) as [_ [_ [_ [_ [_ [_ [S _]]]]]]].
  exact S.
Defined.

(** ** Blanks around the address *)

Lemma blank_and_spaceless (s : jsstring) :
  forallb isWhiteSpace s = true ->
  Forall (fun c => isWhiteSpace c = false) s -> s = [].
Proof.
  destruct s as [|c s]; [reflexivity|]. simpl.
  intros B F. apply andb_true_iff in B as [B _].
  inversion F as [|? ? W _]. congruence.
Qed.

(** The expression rejects an address with blanks before or after it. *)
Lemma padded_address_fails (pre addr post : jsstring) :
  forallb isWhiteSpace pre = true -> forallb isWhiteSpace post = true ->
  pre ++ post <> [] ->
  test emailRegex (pre ++ addr ++ post) = false.
Proof.
  intros Bpre Bpost Hne.
  destruct (test emailRegex (pre ++ addr ++ post)) eqn:T; [|reflexivity].
  apply emailRegex_no_space in T.
  apply Forall_app in T as [Fpre T]. apply Forall_app in T as [_ Fpost].
  rewrite (blank_and_spaceless _ Bpre Fpre), (blank_and_spaceless _ Bpost Fpost) in Hne.
  now destruct Hne.
Qed.

(** C9, as amended: in the validating server the address is tested as
    it was sent. With blanks [pre] and [post], not both empty, around a
    well-formed address, a request that reaches the handler and whose
    name passes its check (non-empty text) is answered with status 400
    citing field [email] and nothing is persisted, although
    trimming the field first would give an address that passes. The
    same blanks around a name are trimmed away: with the well-formed
    address alone in [email], the request is accepted, and the document
    holds the trimmed name and the trimmed address. *)
Theorem email_tested_untrimmed (cfg : Config) (w : Ambient) (req : request)
    (st : Validating.store) (addr pre post : jsstring) :
  filled (Body.name (body req)) = true ->
  Body.email (body req) = JString (pre ++ addr ++ post) ->
  test emailRegex addr = true ->
  forallb isWhiteSpace pre = true -> forallb isWhiteSpace post = true ->
  pre ++ post <> [] ->
  Validating.submit cfg w req st =
    ({| status := 400;
        body_json := [ ("error", JStr "Validation failed");
                       ("details", JStr "Please enter a valid email address");
                       ("field", JStr "email") ]%string |}, st) /\
  test emailRegex (trim (pre ++ addr ++ post)) = true /\
  (forall n : jsstring,
     trim n = n -> n <> [] ->
     optional (Body.mobile (body req)) = true ->
     optional (Body.message (body req)) = true ->
     fault w = None -> st !! oid w = None ->
     let padded_name :=
       {| body := {| Body.name := JString (pre ++ n ++ post);
                     Body.email := JString addr;
                     Body.mobile := Body.mobile (body req);
                     Body.message := Body.message (body req) |};
          file := file req |} in
     (Validating.submit cfg w padded_name st).1 = created (oid w) /\
     exists d, (Validating.submit cfg w padded_name st).2 !! oid w = Some d /\
       Validating.name d = n /\ Validating.email d = trim addr).
Proof.
  intros Fn Ee Ta Bpre Bpost Hne.
  destruct (accepted_email_trim _ Ta) as [Tr Na].
  assert (Tp : trim (pre ++ addr ++ post) = addr) by now apply trim_padded.
  split; [|split].
  - unfold Validating.submit, Validating.submit_try.
    rewrite (is_blank_filled _ _ Fn), Ee. simpl.
    assert (Fe : filled (JString (pre ++ addr ++ post)) = true).
    { simpl. rewrite Tp. now rewrite (bool_decide_eq_false_2 _ Na). }
    rewrite (is_blank_filled _ _ Fe). simpl.
    now rewrite (padded_address_fails _ _ _ Bpre Bpost Hne).
  - now rewrite Tp.
  - intros n Tn Nn Hm Hg Hf Hi. simpl.
    assert (Tpn : trim (pre ++ n ++ post) = n) by now apply trim_padded.
    rewrite submit_acceptable; [| |exact Hf|exact Hi].
    + simpl. split; [reflexivity|].
      eexists. rewrite lookup_insert_eq. split; [reflexivity|].
      unfold expected_document. simpl. rewrite Tpn. auto.
    + unfold acceptable. simpl. rewrite Tpn, Ta, Hm, Hg.
      now rewrite (bool_decide_eq_false_2 _ Nn).
Qed.

Lemma email_tested_untrimmed_witness :
  (filled (Body.name (body (form (JString (js "Jane Doe"))
                             (JString (js " jane@example.com"))
                             JUndefined JUndefined))) = true /\
   test emailRegex (js "jane@example.com") = true /\
   forallb isWhiteSpace (js " ") = true /\ forallb isWhiteSpace [] = true /\
   js " " ++ [] <> []) /\
  status (Validating.submit production (calm 1000 7)
            (form (JString (js "Jane Doe")) (JString (js " jane@example.com"))
               JUndefined JUndefined) ∅).1 = 400 /\
  status (Validating.submit production (calm 1000 7)
            (form (JString (js " Jane Doe")) (JString (js "jane@example.com"))
               JUndefined JUndefined) ∅).1 = 201.
Proof.
  assert (Fn : filled (Body.name (body (form (JString (js "Jane Doe"))
                                         (JString (js " jane@example.com"))
                                         JUndefined JUndefined))) = true)
    by (vm_compute; reflexivity).
  assert (Ta : test emailRegex (js "jane@example.com") = true)
    by (vm_compute; reflexivity).
  assert (Bpre : forallb isWhiteSpace (js " ") = true) by (vm_compute; reflexivity).
  assert (Hne : js " " ++ [] <> []) by discriminate.
  split; [auto 10|].
  destruct (email_tested_untrimmed production (calm 1000 7)
              (form (JString (js "Jane Doe")) (JString (js " jane@example.com"))
                 JUndefined JUndefined) ∅
              (js "jane@example.com") (js " ") []
              Fn eq_refl Ta Bpre eq_refl Hne)
    as [R [_ A]].
  split.
  - exact (f_equal (fun o => status o.1) R).
  - assert (Tn : trim (js "Jane Doe") = js "Jane Doe") by (vm_compute; reflexivity).
    assert (Nn : js "Jane Doe" <> []) by discriminate.
    destruct (A (js "Jane Doe") Tn Nn eq_refl eq_refl eq_refl (lookup_empty _))
      as [C _].
    exact (f_equal status C).
Defined.

(** C9 as stated fails: the name is checked first, so a form without a
    name and with a blank before a well-formed address is answered with
    status 400 citing field [name], not [email]. *)
Lemma padded_address_without_name_cites_name :
  test emailRegex (js "jane@example.com") = true /\
  Validating.post_submit production (calm 1000 7) nameless_padded ∅ =
    ({| status := 400;
        body_json := [ ("error", JStr "Validation failed");
                       ("details", JStr "Name is required and cannot be empty");
                       ("field", JStr "name") ]%string |}, ∅) /\
  field_of "field"
    (body_json (Validating.post_submit production (calm 1000 7)
                  nameless_padded ∅).1)
    <> Some (JStr "email").
Proof. vm_compute. repeat split. discriminate. Qed.

(** ** The health endpoint *)

(** C10: [GET /api/health] is answered with status 200 and
    [status: "healthy"] whatever the state of the connection; [database]
    is ["connected"] exactly when [readyState] is 1 and ["disconnected"]
    otherwise; the body carries the time of the request and the allowed
    origins; and two answers given at the same time differ in no key but
    [database]. *)
Theorem health_always_healthy (cfg : Config) (w : Ambient) :
  status (Validating.health cfg w) = 200 /\
  field_of "status" (body_json (Validating.health cfg w)) = Some (JStr "healthy") /\
  (field_of "database" (body_json (Validating.health cfg w)) = Some (JStr "connected")
   <-> readyState w = 1) /\
  (readyState w <> 1 ->
   field_of "database" (body_json (Validating.health cfg w))
   = Some (JStr "disconnected")) /\
  field_of "timestamp" (body_json (Validating.health cfg w)) = Some (JDate (now w)) /\
  field_of "cors" (body_json (Validating.health cfg w))
  = Some (JOrigins (Validating.corsOptions_origin cfg)) /\
  (forall w' k, now w' = now w -> k <> "database"%string ->
     field_of k (body_json (Validating.health cfg w'))
     = field_of k (body_json (Validating.health cfg w))) /\
  (forall w', status (Validating.health cfg w') = status (Validating.health cfg w)).
Proof.
  unfold Validating.health. simpl.
  split; [reflexivity|]. split; [reflexivity|]. split; [|split].
  - destruct (N.eqb_spec (readyState w) 1) as [E|E]; split; intros H;
      congruence.
  - intros E. apply N.eqb_neq in E. now rewrite E.
  - split; [reflexivity|]. split; [reflexivity|]. split; [|reflexivity].
    intros w' k Hn Hk. rewrite Hn.
    destruct (String.eqb k "status"); [reflexivity|].
    destruct (String.eqb_spec k "database"); [contradiction | reflexivity].
Qed.

(** * Further properties of the servers *)

(** ** [trim] is idempotent *)

Lemma trimStart_idem (s : jsstring) : trimStart (trimStart s) = trimStart s.
Proof.
  induction s as [|c s IH]; simpl; [reflexivity|].
  destruct (isWhiteSpace c) eqn:W; [exact IH|]. simpl. now rewrite W.
Qed.

Lemma trimStart_starts (s : jsstring) (c : N) (rest : jsstring) :
  trimStart s = c :: rest -> isWhiteSpace c = false.
Proof.
  induction s as [|c0 s IH]; simpl; [discriminate|].
  destruct (isWhiteSpace c0) eqn:W; [exact IH|].
  intros E. injection E as -> _. exact W.
Qed.

Lemma trimStart_snoc (x : jsstring) (c : N) :
  isWhiteSpace c = false -> trimStart (x ++ [c]) = trimStart x ++ [c].
Proof.
  intros W. induction x as [|y x IH]; simpl.
  - now rewrite W.
  - destruct (isWhiteSpace y); [exact IH | reflexivity].
Qed.

Lemma trimEnd_cons (c : N) (a : jsstring) :
  isWhiteSpace c = false -> trimEnd (c :: a) = c :: trimEnd a.
Proof.
  intros W. unfold trimEnd. simpl rev at 2.
  rewrite (trimStart_snoc _ _ W), rev_app_distr. reflexivity.
Qed.

Lemma trimEnd_idem (a : jsstring) : trimEnd (trimEnd a) = trimEnd a.
Proof. unfold trimEnd. now rewrite rev_involutive, trimStart_idem. Qed.

Lemma trim_idem (s : jsstring) : trim (trim s) = trim s.
Proof.
  unfold trim. destruct (trimStart s) as [|c a] eqn:E; [reflexivity|].
  pose proof (trimStart_starts _ _ _ E) as W.
  rewrite (trimEnd_cons _ _ W), (trimStart_head _ _ W), <- (trimEnd_cons _ _ W).
  apply trimEnd_idem.
Qed.

(** ** Every outcome of the validating handler *)

Lemma call_trim_throws (field : string) (v : jsvalue) (e : js_error) :
  call_trim field v = Throw e -> err_name e = "TypeError"%string.
Proof. destruct v; simpl; intros E; inversion E; reflexivity. Qed.

Lemma is_blank_throws (field : string) (v : jsvalue) (e : js_error) :
  is_blank field v = Throw e -> err_name e = "TypeError"%string.
Proof.
  unfold is_blank. destruct (negb (truthy v)); [discriminate|].
  destruct (call_trim field v) as [t|e'] eqn:C; simpl; [discriminate|].
  intros E. injection E as <-. exact (call_trim_throws _ _ _ C).
Qed.

Lemma optional_trim_throws (field : string) (v : jsvalue) (e : js_error) :
  (if truthy v then call_trim field v else Normal []) = Throw e ->
  err_name e = "TypeError"%string.
Proof. destruct (truthy v); [apply call_trim_throws | discriminate]. Qed.

(** A request that is not acceptable ends in one of the three 400
    answers of the validation block or in a [TypeError]. *)
Lemma submit_try_not_acceptable (w : Ambient) (req : request)
    (st : Validating.store) :
  acceptable (body req) = false ->
  (exists details field,
     Validating.submit_try w req st =
       Normal (Validating.validation_failed details field, st)) \/
  (exists e, Validating.submit_try w req st = Throw e /\
     err_name e = "TypeError"%string).
Proof.
  intros Ha. unfold Validating.submit_try.
  destruct (is_blank "name" (Body.name (body req))) as [[|]|e] eqn:Bn;
    simpl; [left; eauto | | right; eauto using is_blank_throws].
  destruct (is_blank "email" (Body.email (body req))) as [[|]|e] eqn:Be;
    simpl; [left; eauto | | right; eauto using is_blank_throws].
  destruct (test emailRegex (ToString (Body.email (body req)))) eqn:Te;
    simpl; [| left; eauto].
  destruct (call_trim "name" (Body.name (body req))) as [n'|e] eqn:Cn;
    simpl; [| right; eauto using call_trim_throws].
  destruct (call_trim "email" (Body.email (body req))) as [e'|e] eqn:Ce;
    simpl; [| right; eauto using call_trim_throws].
  destruct (if truthy (Body.mobile (body req)) then _ else _) as [m'|e] eqn:Cm;
    simpl; [| right; eauto using optional_trim_throws].
  destruct (if truthy (Body.message (body req)) then _ else _) as [g'|e] eqn:Cg;
    simpl; [| right; eauto using optional_trim_throws].
  exfalso. revert Ha. unfold acceptable.
  destruct (Body.name (body req)) as [|n|tn sn| |on cn]; try discriminate.
  destruct (Body.email (body req)) as [|em|te se| |oe ce]; try discriminate.
  simpl in Te. rewrite Te.
  unfold is_blank in Bn. simpl in Bn.
  destruct (bool_decide (n = [])); simpl in Bn; [discriminate|].
  injection Bn as Bn. simpl. rewrite Bn. simpl.
  destruct (Body.mobile (body req)) as [|m|tm sm| |om cm];
    destruct (Body.message (body req)) as [|g|tg sg| |og cg]; simpl; try discriminate;
    try (destruct tm; simpl in *; try discriminate);
    try (destruct tg; simpl in *; discriminate).
Qed.

(** The handler ends in a validation answer, in the [catch] block with
    a [TypeError], a refused identifier or the failure of the
    persistence layer, or in the 201 answer with the expected document
    stored. *)
Lemma submit_outcome (cfg : Config) (w : Ambient) (req : request)
    (st : Validating.store) :
  (exists details field,
     Validating.submit cfg w req st =
       (Validating.validation_failed details field, st)) \/
  (exists e, Validating.submit cfg w req st = (Validating.submit_catch cfg e, st) /\
     (err_name e = "TypeError"%string \/
      (e = duplicate_key /\ is_Some (st !! oid w)) \/
      fault w = Some e)) \/
  (Validating.submit cfg w req st =
     (created (oid w), <[oid w := expected_document w req]> st) /\
   acceptable (body req) = true /\ fault w = None /\ st !! oid w = None).
Proof.
  unfold Validating.submit. destruct (acceptable (body req)) eqn:Ha.
  - rewrite (submit_try_acceptable _ _ _ Ha). unfold Validating.save.
    rewrite (schema_accepts_expected _ _ Ha).
    change (Validating._id (expected_document w req)) with (oid w).
    destruct (fault w) as [e|] eqn:F; simpl; [right; left; eauto|].
    destruct (st !! oid w) as [d|] eqn:L; simpl.
    + right; left. exists duplicate_key. eauto 6.
    + right; right. auto.
  - destruct (submit_try_not_acceptable w req st Ha) as [[d [f E]] | [e [E T]]];
      rewrite E; [left | right; left]; eauto.
Qed.

Lemma post_submit_cases (cfg : Config) (w : Ambient) (req : request)
    (st : Validating.store) :
  Validating.post_submit cfg w req st =
    (Validating.error_middleware cfg file_too_large, st) \/
  Validating.post_submit cfg w req st = Validating.submit cfg w req st.
Proof.
  unfold Validating.post_submit, Validating.upload_single.
  destruct (file req) as [f|]; [|now right].
  destruct (Validating.fileSize <? File.size f); [now left | now right].
Qed.

(** The route stores the expected document under an unused identifier,
    or leaves the collection as it was. *)
Lemma post_submit_step (cfg : Config) (w : Ambient) (req : request)
    (st : Validating.store) :
  (status (Validating.post_submit cfg w req st).1 = 201 /\
   st !! oid w = None /\
   (Validating.post_submit cfg w req st).2
     = <[oid w := expected_document w req]> st) \/
  (status (Validating.post_submit cfg w req st).1 <> 201 /\
   (Validating.post_submit cfg w req st).2 = st).
Proof.
  destruct (post_submit_cases cfg w req st) as [E | E]; rewrite E.
  - right. simpl. split; [discriminate | reflexivity].
  - destruct (Validating.submit cfg w req st) as [r st'] eqn:O. simpl.
    destruct (decide (status r = 201)) as [S | S].
    + left. destruct (submit_created_inv _ _ _ _ _ _ O S) as [_ [_ [L [_ ->]]]].
      auto.
    + right. split; [exact S|].
      destruct (acceptable (body req)) eqn:Ha.
      * destruct (submit_outcome cfg w req st)
          as [[d [f X]] | [[e [X _]] | [X _]]]; rewrite O in X;
          injection X as -> ->; try reflexivity. now destruct S.
      * destruct (submit_not_acceptable cfg w req st Ha) as [r0 [X _]].
        rewrite O in X. now injection X as _ ->.
Qed.

(** The route answers with 201, 400 or 500 only, and the collection
    changes exactly on a 201 answer: then one document, the expected
    one, is added under an identifier that was unused; on a 400 or 500
    answer the collection is as before. *)
Theorem collection_changes_only_on_201 (cfg : Config) (w : Ambient)
    (req : request) (st : Validating.store) :
  let out := Validating.post_submit cfg w req st in
  (status out.1 = 201 /\ st !! oid w = None /\
   out.2 = <[oid w := expected_document w req]> st /\
   size out.2 = S (size st)) \/
  ((status out.1 = 400 \/ status out.1 = 500) /\ out.2 = st).
Proof.
  simpl. destruct (post_submit_cases cfg w req st) as [E | E]; rewrite E.
  - right. simpl. auto.
  - destruct (submit_outcome cfg w req st)
      as [[d [f O]] | [[e [O _]] | [O [_ [_ L]]]]]; rewrite O; simpl.
    + right. auto.
    + right. split; [apply submit_catch_status | reflexivity].
    + left. repeat split; [exact L|]. now apply map_size_insert_None.
Qed.

(** ** Values that are not text *)

(** A truthy value that is not a string (an array, a nested object, a
    number) in [name], or behind a valid name in [email], or behind a
    valid name and address in [mobile] or [message], makes [trim]
    throw: the answer is 500 [Server error], the message of the
    [TypeError] is shown in development mode only, and nothing is
    persisted. *)
Theorem non_text_field_answered_500 (cfg : Config) (w : Ambient) (req : request)
    (st : Validating.store) (field : string) :
  throwing_field (body req) = Some field ->
  Validating.submit cfg w req st =
    ({| status := 500;
        body_json :=
          [ ("error", JStr "Server error");
            ("details", JStr (if development cfg
                              then field +:+ ".trim is not a function"
                              else "Internal server error")) ]%string |}, st).
Proof.
  unfold throwing_field, Validating.submit, Validating.submit_try.
  destruct (Body.name (body req)) as [|n|[|] sn| |on cn] eqn:En; simpl;
    try discriminate; try (intros E; injection E as <-; reflexivity).
  unfold is_blank. simpl.
  destruct (bool_decide (trim n = [])) eqn:Tn; simpl; [discriminate|].
  destruct (bool_decide (n = [])) eqn:Nn; simpl.
  { apply bool_decide_eq_true in Nn. subst n.
    apply bool_decide_eq_false in Tn. now destruct Tn. }
  destruct (Body.email (body req)) as [|e|[|] se| |oe ce] eqn:Ee; simpl;
    try discriminate; try (intros E; injection E as <-; reflexivity).
  destruct (test emailRegex e) eqn:Te; [|discriminate].
  destruct (accepted_email_trim _ Te) as [Tr Ne].
  rewrite (bool_decide_eq_false_2 _ Ne). simpl.
  rewrite Tr, (bool_decide_eq_false_2 _ Ne). simpl.
  destruct (Body.mobile (body req)) as [|m|[|] sm| |om cm] eqn:Em; simpl;
    try (intros E; injection E as <-; reflexivity);
    destruct (Body.message (body req)) as [|g|[|] sg| |og cg]; simpl;
    try discriminate;
    intros E; injection E as <-;
    repeat match goal with
           | |- context [bool_decide ?P] => destruct (bool_decide P)
           end;
    reflexivity.
Qed.

Lemma non_text_field_answered_500_witness :
  throwing_field (body name_array) = Some "name"%string /\
  Validating.submit production (calm 1000 7) name_array ∅ =
    ({| status := 500;
        body_json := [ ("error", JStr "Server error");
                       ("details", JStr "Internal server error") ]%string |}, ∅).
Proof.
  split; [reflexivity|].
  exact (non_text_field_answered_500 production (calm 1000 7) name_array ∅
           "name" eq_refl).
Defined.

(** ** The schema's validators *)

Lemma catch_without_validation_error (cfg : Config) (e : js_error) :
  String.eqb (err_name e) "ValidationError" = false ->
  field_of "error" (body_json (Validating.submit_catch cfg e))
    <> Some (JStr "Database validation failed") /\
  field_of "fields" (body_json (Validating.submit_catch cfg e)) = None.
Proof.
  intros H. unfold Validating.submit_catch. rewrite H.
  destruct (_ || _); simpl; split; congruence.
Qed.

(** Unless the persistence layer itself raises a [ValidationError], the
    handler never answers [Database validation failed] and never lists
    [fields]: what the [required] validators of the schema would reject
    is stopped by the handler's own checks first. *)
Theorem schema_validators_never_fire (cfg : Config) (w : Ambient) (req : request)
    (st : Validating.store) :
  store_validation_fault w = false ->
  field_of "error" (body_json (Validating.submit cfg w req st).1)
    <> Some (JStr "Database validation failed") /\
  field_of "fields" (body_json (Validating.submit cfg w req st).1) = None.
Proof.
  intros Hv.
  destruct (submit_outcome cfg w req st)
    as [[d [f O]] | [[e [O K]] | [O _]]]; rewrite O; simpl.
  - split; congruence.
  - apply catch_without_validation_error.
    destruct K as [T | [[-> _] | F]].
    + rewrite T. reflexivity.
    + reflexivity.
    + unfold store_validation_fault in Hv. now rewrite F in Hv.
  - split; congruence.
Qed.

Lemma schema_validators_never_fire_witness :
  store_validation_fault (failing network_error) = false /\
  field_of "fields"
    (body_json (Validating.submit production (failing network_error) jane ∅).1)
    = None.
Proof.
  split; [reflexivity|].
  exact (proj2 (schema_validators_never_fire production (failing network_error)
                  jane ∅ eq_refl)).
Defined.

(** ** The stored address *)

(** The address of an accepted request is stored exactly as it was
    sent: it matched an expression that admits no whitespace, so the
    [trim] applied when the document is built changes nothing. The name
    is stored trimmed. *)
Theorem accepted_address_stored_verbatim (cfg : Config) (w : Ambient)
    (req : request) (st : Validating.store) :
  status (Validating.submit cfg w req st).1 = 201 ->
  exists (n e : jsstring) (d : Validating.Submission),
    Body.name (body req) = JString n /\ Body.email (body req) = JString e /\
    (Validating.submit cfg w req st).2 !! oid w = Some d /\
    Validating.email d = e /\ EmailShape e /\
    Validating.name d = trim n.
Proof.
  destruct (Validating.submit cfg w req st) as [r st'] eqn:E. simpl. intros H.
  destruct (submit_created_inv _ _ _ _ _ _ E H) as [Ha [_ [_ [_ ->]]]].
  unfold acceptable in Ha. rewrite !andb_true_iff in Ha.
  destruct Ha as [[[Hn He] _] _].
  destruct (filled_inv _ Hn) as [n [En _]].
  destruct (Body.email (body req)) as [|e|t sh| |sho ca] eqn:Ee; try discriminate.
  exists n, e, (expected_document w req). rewrite lookup_insert_eq.
  unfold expected_document. simpl. rewrite En, Ee. simpl.
  destruct (accepted_email_trim _ He) as [Tr _].
  repeat split; auto. now apply emailRegex_shape.
Qed.

Lemma accepted_address_stored_verbatim_witness :
  status (Validating.submit production (calm 1000 7) padded_jane ∅).1 = 201 /\
  exists d, (Validating.submit production (calm 1000 7) padded_jane ∅).2 !! 7
            = Some d /\
    Validating.email d = js "jane@example.com" /\
    Validating.name d = js "Jane Doe".
Proof.
  assert (H : status (Validating.submit production (calm 1000 7) padded_jane ∅).1
              = 201) by (vm_compute; reflexivity).
  split; [exact H|].
  destruct (accepted_address_stored_verbatim production (calm 1000 7)
              padded_jane ∅ H) as [n [e [d [En [Ee [L [De [_ Dn]]]]]]]].
  exists d. split; [exact L|].
  injection En as <-. injection Ee as <-. split; [exact De | exact Dn].
Defined.

(** ** Sequences of requests *)

Lemma post_submit_keeps (cfg : Config) (w : Ambient) (req : request)
    (st : Validating.store) (k : N) (d : Validating.Submission) :
  st !! k = Some d -> (Validating.post_submit cfg w req st).2 !! k = Some d.
Proof.
  intros L.
  destruct (post_submit_step cfg w req st) as [[_ [F ->]] | [_ ->]]; [|exact L].
  rewrite lookup_insert_ne; [exact L|]. intros <-. congruence.
Qed.

(** However many requests follow, a stored document is never altered
    and never removed: it is read back unchanged under its identifier.
    A request that draws an identifier already in use is refused, not
    written over the old document. *)
Theorem stored_documents_are_kept (cfg : Config) (calls : list (Ambient * request))
    (st : Validating.store) (k : N) (d : Validating.Submission) :
  st !! k = Some d -> (serve cfg calls st).2 !! k = Some d.
Proof.
  revert st. induction calls as [|[w req] rest IH]; intros st L; simpl.
  - exact L.
  - apply IH. now apply post_submit_keeps.
Qed.

Lemma stored_documents_are_kept_witness :
  ({[ 7 := expected_document (calm 1000 7) jane ]} : Validating.store) !! 7
    = Some (expected_document (calm 1000 7) jane) /\
  (serve production [(calm 2000 7, padded_jane); (calm 3000 8, jane)]
     {[ 7 := expected_document (calm 1000 7) jane ]}).2 !! 7
    = Some (expected_document (calm 1000 7) jane).
Proof.
  assert (L : ({[ 7 := expected_document (calm 1000 7) jane ]}
                 : Validating.store) !! 7
              = Some (expected_document (calm 1000 7) jane))
    by apply lookup_singleton_eq.
  split; [exact L|].
  exact (stored_documents_are_kept production
           [(calm 2000 7, padded_jane); (calm 3000 8, jane)] _ 7 _ L).
Defined.

(** After any sequence of requests the collection has grown by exactly
    the number of 201 answers: one document per accepted submission,
    none for any other answer. *)
Theorem one_document_per_201 (cfg : Config) (calls : list (Ambient * request))
    (st : Validating.store) :
  size (serve cfg calls st).2 = (size st + created_count (serve cfg calls st).1)%nat.
Proof.
  revert st. induction calls as [|[w req] rest IH]; intros st; simpl.
  - unfold created_count. simpl. lia.
  - rewrite IH. unfold created_count.
    destruct (post_submit_step cfg w req st) as [[S [F E]] | [S E]]; rewrite E.
    + rewrite filter_cons_True by exact S.
      rewrite map_size_insert_None by exact F. simpl. lia.
    + now rewrite filter_cons_False by exact S.
Qed.

Lemma expected_document_well_formed (w : Ambient) (req : request) :
  acceptable (body req) = true -> well_formed (expected_document w req).
Proof.
  unfold acceptable. rewrite !andb_true_iff. intros [[[Hn He] _] _].
  destruct (filled_inv _ Hn) as [n [En [Tn _]]].
  destruct (Body.email (body req)) as [|e|t sh| |sho ca] eqn:Ee; try discriminate.
  destruct (accepted_email_trim _ He) as [Tr _].
  unfold well_formed, expected_document. simpl. rewrite En, Ee. simpl.
  rewrite Tr. repeat split.
  - exact Tn.
  - apply trim_idem.
  - now apply emailRegex_shape.
  - destruct (Body.mobile (body req)); simpl; try reflexivity. apply trim_idem.
  - destruct (Body.message (body req)); simpl; try reflexivity. apply trim_idem.
Qed.

Lemma serve_keeps_well_formed (cfg : Config) (calls : list (Ambient * request))
    (st : Validating.store) :
  (forall k d, st !! k = Some d -> Validating._id d = k /\ well_formed d) ->
  forall k d, (serve cfg calls st).2 !! k = Some d ->
    Validating._id d = k /\ well_formed d.
Proof.
  revert st. induction calls as [|[w req] rest IH]; intros st Inv; simpl.
  - exact Inv.
  - apply IH. intros k d.
    destruct (post_submit_cases cfg w req st) as [E | E]; rewrite E;
      [apply Inv|].
    destruct (submit_outcome cfg w req st)
      as [[dt [f O]] | [[e [O _]] | [O [Ha _]]]]; rewrite O; simpl;
      try apply Inv.
    destruct (decide (k = oid w)) as [->|Hk].
    + rewrite lookup_insert_eq. intros [= <-].
      split; [reflexivity | now apply expected_document_well_formed].
    + rewrite lookup_insert_ne by congruence. apply Inv.
Qed.

(** Every document the validating server ever stores, starting from an
    empty collection, sits under its own [_id], has a non-empty name
    and an address of the accepted shape, and has no blanks around its
    name, mobile or message. *)
Theorem stored_documents_well_formed (cfg : Config)
    (calls : list (Ambient * request)) (k : N) (d : Validating.Submission) :
  (serve cfg calls ∅).2 !! k = Some d ->
  Validating._id d = k /\ well_formed d.
Proof.
  apply serve_keeps_well_formed. intros k' d'. rewrite lookup_empty. discriminate.
Qed.

Lemma stored_documents_well_formed_witness :
  (serve production [(calm 1000 7, padded_jane)] ∅).2 !! 7
    = Some (expected_document (calm 1000 7) padded_jane) /\
  Validating._id (expected_document (calm 1000 7) padded_jane) = 7 /\
  well_formed (expected_document (calm 1000 7) padded_jane).
Proof.
  assert (L : (serve production [(calm 1000 7, padded_jane)] ∅).2 !! 7
              = Some (expected_document (calm 1000 7) padded_jane))
    by (vm_compute; reflexivity).
  split; [exact L|].
  exact (stored_documents_well_formed production [(calm 1000 7, padded_jane)]
           7 _ L).
Defined.

(** ** The disk-storage handler *)



Lemma disk_submit_keeps (w : Ambient) (req : request) (st : Disk.store)
    (k : N) (d : Disk.Submission) :
  st !! k = Some d -> (Disk.submit w req st).2 !! k = Some d.
Proof.
  intros L. unfold Disk.submit, Disk.save.
  change (Disk._id (Disk.new_Submission w (body req) _)) with (oid w).
  destruct (Disk.cast_errors (body req)); [|exact L].
  destruct (fault w); [exact L|].
  destruct (st !! oid w) eqn:F; [exact L|]. simpl.
  rewrite lookup_insert_ne; [exact L|]. intros <-. congruence.
Qed.

(** In the disk-storage servers too a stored document is never altered
    or removed by later requests, and after any sequence of requests
    the collection has grown by the number of 201 answers. *)
Theorem disk_documents_are_kept (calls : list (Ambient * request))
    (st : Disk.store) :
  (forall k d, st !! k = Some d -> (serve_disk calls st).2 !! k = Some d) /\
  size (serve_disk calls st).2
    = (size st + created_count (serve_disk calls st).1)%nat.
Proof.
  split.
  - revert st. induction calls as [|[w req] rest IH]; intros st k d L; simpl.
    + exact L.
    + apply IH. now apply disk_submit_keeps.
  - revert st. induction calls as [|[w req] rest IH]; intros st; simpl.
    + unfold created_count. simpl. lia.
    + rewrite IH. unfold created_count.
      unfold Disk.submit, Disk.save.
      change (Disk._id (Disk.new_Submission w (body req) _)) with (oid w).
      destruct (Disk.cast_errors (body req)); cbn [fst snd];
        [|now rewrite filter_cons_False by discriminate].
      destruct (fault w); cbn [fst snd];
        [now rewrite filter_cons_False by discriminate|].
      destruct (st !! oid w) eqn:F; cbn [fst snd];
        [now rewrite filter_cons_False by discriminate|].
      rewrite filter_cons_True by reflexivity.
      rewrite map_size_insert_None by exact F. simpl. lia.
Qed.

Lemma disk_documents_are_kept_witness :
  ({[ 7 := stored_as_sent (calm 1000 7) jane ]} : Disk.store) !! 7
    = Some (stored_as_sent (calm 1000 7) jane) /\
  (serve_disk [(calm 2000 7, nameless); (calm 3000 8, nameless)]
     {[ 7 := stored_as_sent (calm 1000 7) jane ]}).2 !! 7
    = Some (stored_as_sent (calm 1000 7) jane) /\
  size (serve_disk [(calm 2000 7, nameless); (calm 3000 8, nameless)] ∅).2
    = (size (∅ : Disk.store)
       + created_count
           (serve_disk [(calm 2000 7, nameless); (calm 3000 8, nameless)] ∅).1)%nat.
Proof.
  assert (L : ({[ 7 := stored_as_sent (calm 1000 7) jane ]} : Disk.store) !! 7
              = Some (stored_as_sent (calm 1000 7) jane))
    by apply lookup_singleton_eq.
  split; [exact L|]. split.
  - exact (proj1 (disk_documents_are_kept
                    [(calm 2000 7, nameless); (calm 3000 8, nameless)] _) 7 _ L).
  - exact (proj2 (disk_documents_are_kept
                    [(calm 2000 7, nameless); (calm 3000 8, nameless)] ∅)).
Defined.

(** ** The names of uploaded files on disk *)

Lemma js_inj (s1 s2 : string) : js s1 = js s2 -> s1 = s2.
Proof.
  revert s2. induction s1 as [|a s1 IH]; intros [|b s2]; simpl;
    try discriminate; [reflexivity|].
  intros E. injection E as Ea Es.
  apply (f_equal ascii_of_N) in Ea. rewrite !ascii_N_embedding in Ea.
  subst b. f_equal. now apply IH.
Qed.

Lemma digits_without_underscore (x : N) (s : string) :
  ~ In UNDERSCORE (js s) -> ~ In UNDERSCORE (js (pretty_N_go x s)).
Proof.
  revert s. induction (N.lt_wf_0 x) as [x _ IH]; intros s Hs.
  assert (Hx : x = 0 \/ 0 < x) by lia. destruct Hx as [->|Hx].
  - now rewrite pretty_N_go_0.
  - rewrite pretty_N_go_step by exact Hx. apply IH.
    + now apply N.div_lt.
    + simpl. intros [E|E]; [|now apply Hs]. revert E.
      unfold pretty_N_char. repeat case_match; discriminate.
Qed.

Lemma decimal_without_underscore (t : Z) : ~ In UNDERSCORE (js (pretty t)).
Proof.
  assert (P : forall p : positive, ~ In UNDERSCORE (js (pretty p))).
  { intros p. unfold pretty, pretty_positive, pretty, pretty_N.
    case_decide; [discriminate|].
    apply digits_without_underscore. simpl. tauto. }
  destruct t as [|p|p]; unfold pretty, pretty_Z.
  - simpl. intros [E|[]]. discriminate.
  - apply P.
  - simpl. intros [E|E]; [discriminate | now apply (P p)].
Qed.

Lemma split_at_first (u : N) (a b x y : jsstring) :
  ~ In u a -> ~ In u b -> a ++ u :: x = b ++ u :: y -> a = b /\ x = y.
Proof.
  revert b. induction a as [|c a IH]; intros [|c' b] Ha Hb E; simpl in *.
  - injection E as ->. auto.
  - injection E as -> _. destruct Hb. now left.
  - injection E as -> _. destruct Ha. now left.
  - injection E as -> E. destruct (IH b) as [-> ->]; auto.
Qed.

(** Two uploads that differ in the millisecond of arrival or in the
    original name of the file are given different file names by the
    disk storage: the decimal time holds no underscore, so time and
    name can be read back from the file name. *)
Theorem upload_names_distinct (t1 t2 : Z) (n1 n2 : jsstring) :
  t1 <> t2 \/ n1 <> n2 -> filename t1 n1 <> filename t2 n2.
Proof.
  intros H E. unfold filename in E.
  apply split_at_first in E as [Et En];
    [| apply decimal_without_underscore | apply decimal_without_underscore].
  apply js_inj in Et. apply (inj pretty) in Et.
  destruct H as [H|H]; contradiction.
Qed.

Lemma upload_names_distinct_witness :
  (1000%Z <> 1001%Z \/ js "cv.pdf" <> js "cv.pdf") /\
  filename 1000 (js "cv.pdf") <> filename 1001 (js "cv.pdf").
Proof.
  assert (H : 1000%Z <> 1001%Z \/ js "cv.pdf" <> js "cv.pdf") by (left; lia).
  split; [exact H|].
  exact (upload_names_distinct 1000 1001 (js "cv.pdf") (js "cv.pdf") H).
Defined.

(** ** Allowed origins *)

Lemma matches_eps (s : jsstring) : Matches Eps s <-> s = [].
Proof. split; [now inversion 1 | intros ->; constructor]. Qed.

Lemma matches_literal (l : jsstring) (k : regex) (s : jsstring) :
  Matches (literal l k) s <-> exists t, s = l ++ t /\ Matches k t.
Proof.
  revert s. induction l as [|c l IH]; intros s; simpl.
  - split; [eauto | now intros [t [-> H]]].
  - rewrite matches_cat. split.
    + intros [s1 [s2 [-> [H1 H2]]]].
      apply matches_atom in H1 as [c' [-> K]]. apply in_lit in K as ->.
      apply IH in H2 as [t [-> H2]]. eauto.
    + intros [t [-> H]]. exists [c], (l ++ t). split; [reflexivity|].
      split; [constructor; now apply in_lit | apply IH; eauto].
Qed.

(** The pattern of the allowed origins admits exactly the strings that
    begin with [https://apply4me-frontend] and end with [.vercel.app],
    with anything but line terminators in between. *)
Lemma vercel_pattern_shape (s : jsstring) :
  test vercel_pattern s = true <-> VercelShape s.
Proof.
  rewrite test_spec. unfold vercel_pattern, VercelShape.
  rewrite matches_literal. split.
  - intros [t [-> H]]. apply matches_cat in H as [x [y [-> [Hx Hy]]]].
    apply matches_star_atom in Hx.
    apply matches_literal in Hy as [z [-> Hz]]. apply matches_eps in Hz as ->.
    exists x. rewrite app_nil_r. auto.
  - intros [x [-> Hx]]. eexists. split; [reflexivity|].
    apply MCat; [now apply matches_star_atom|].
    apply matches_literal. exists []. rewrite app_nil_r.
    split; [reflexivity | constructor].
Qed.

Lemma regex_of_vercel_source :
  regex_of_source "^https:\/\/apply4me-frontend.*\.vercel\.app$" = vercel_pattern.
Proof. reflexivity. Qed.

(** An origin is allowed exactly when it is the configured front-end
    URL ([http://localhost:5173] when [FRONTEND_URL] is unset or empty)
    or has the shape the pattern admits; the two fixed production URLs
    of the list are themselves of that shape. A request without an
    [Origin] header is never allowed. *)
Theorem allowed_origins (cfg : Config) (o : string) :
  (isOriginAllowed cfg (Some o) = true <->
   o = frontend_url cfg \/ VercelShape (js o)) /\
  isOriginAllowed cfg None = false.
Proof.
  split; [|reflexivity].
  unfold isOriginAllowed, Validating.corsOptions_origin.
  cbn [existsb entry_admits]. rewrite regex_of_vercel_source.
  fold (frontend_url cfg). rewrite !orb_true_iff, !String.eqb_eq.
  rewrite vercel_pattern_shape. split.
  - intros [H | [H | [H | [H | H]]]]; [now left | | | now right | discriminate].
    + right. subst o. exists []. split; [reflexivity | constructor].
    + right. subst o. exists (js "-9tjtasn0b-alunixs-projects").
      split; [reflexivity|]. repeat constructor.
  - intros [H | H]; auto.
Qed.

(** ** Accepted addresses *)

Lemma plain_without_at (s : list N) :
  Forall plain s -> filter (fun c => c = AT) s = [].
Proof.
  induction 1 as [|c s [_ Hc] _ IH]; [reflexivity|].
  now rewrite filter_cons_False.
Qed.

(** An address that passes the format check holds exactly one [@], a
    [.] somewhere, no whitespace, and at least five characters. *)
Theorem accepted_address_facts (s : list N) :
  test emailRegex s = true ->
  length (filter (fun c => c = AT) s) = 1%nat /\
  In DOT s /\
  (5 <= length s)%nat /\
  Forall (fun c => isWhiteSpace c = false) s.
Proof.
  intros H. pose proof (emailRegex_no_space _ H) as W.
  apply emailRegex_shape in H
    as [l [d [t [-> [Nl [Nd [Nt [Fl [Fd Ft]]]]]]]]].
  repeat split; [| | |exact W].
  - rewrite filter_app, filter_cons_True by reflexivity.
    rewrite filter_app, filter_cons_False by discriminate.
    rewrite !plain_without_at by assumption. reflexivity.
  - apply in_or_app. right. right. apply in_or_app. right. now left.
  - rewrite length_app. simpl. rewrite length_app. simpl.
    destruct l; [congruence|]. destruct d; [congruence|].
    destruct t; [congruence|]. simpl. lia.
Qed.

Lemma accepted_address_facts_witness :
  test emailRegex (js "a@b.c") = true /\
  length (filter (fun c => c = AT) (js "a@b.c")) = 1%nat /\
  (5 <= length (js "a@b.c"))%nat.
Proof.
  assert (H : test emailRegex (js "a@b.c") = true) by (vm_compute; reflexivity).
  split; [exact H|].
  destruct (accepted_address_facts (js "a@b.c") H) as [A [_ [L _]]].
  split; [exact A | exact L].
Defined.

(** ** The environment shown and the environment acted on *)

(** With [NODE_ENV] unset or empty the root page and the start-up log
    name the environment [development], yet the server does not act as
    in development: the error-handling middleware leaves [details] out
    and the [catch] block of the submit handler gives its fixed texts
    for every error that is not a [ValidationError]. *)
Theorem unset_environment_hides_details (cfg : Config) (err : js_error) :
  NODE_ENV cfg = None \/ NODE_ENV cfg = Some ""%string ->
  environment_label cfg = "development"%string /\
  development cfg = false /\
  body_json (Validating.error_middleware cfg err)
    = [ ("error", JStr "Internal server error") ]%string /\
  (err_name err <> "ValidationError"%string ->
   field_of "details" (body_json (Validating.submit_catch cfg err))
     = Some (JStr "Database connection issue") \/
   field_of "details" (body_json (Validating.submit_catch cfg err))
     = Some (JStr "Internal server error")).
Proof.
  intros H.
  assert (D : development cfg = false).
  { unfold development. destruct H as [-> | ->]; reflexivity. }
  split; [|split; [exact D|split]].
  - unfold environment_label. destruct H as [-> | ->]; reflexivity.
  - unfold Validating.error_middleware. now rewrite D.
  - intros Hne. apply String.eqb_neq in Hne.
    unfold Validating.submit_catch. rewrite Hne, D.
    destruct (_ || _); simpl; auto.
Qed.

Lemma unset_environment_hides_details_witness :
  (NODE_ENV {| NODE_ENV := None; FRONTEND_URL := None |} = None \/
   NODE_ENV {| NODE_ENV := None; FRONTEND_URL := None |} = Some ""%string) /\
  environment_label {| NODE_ENV := None; FRONTEND_URL := None |}
    = "development"%string /\
  development {| NODE_ENV := None; FRONTEND_URL := None |} = false.
Proof.
  assert (H : NODE_ENV {| NODE_ENV := None; FRONTEND_URL := None |} = None \/
              NODE_ENV {| NODE_ENV := None; FRONTEND_URL := None |}
                = Some ""%string) by (left; reflexivity).
  split; [exact H|].
  destruct (unset_environment_hides_details
              {| NODE_ENV := None; FRONTEND_URL := None |} network_error H)
    as [L [D _]].
  split; [exact L | exact D].
Defined.
